(** * Credit-entry ledger: the ledger service of [Cred_entry_strmlt_better_ui.py]

    A shallow embedding of the functions that read, extend and shrink the
    spreadsheet-backed ledger, and of the entry form and the entries log
    of the main page, followed by the properties of the ledger contract.

    Layout:
    - Python values, floats and the three library primitives the code
      relies on ([PyLib]);
    - the worksheet (gspread) and the data frame (pandas);
    - [load_data_from_gsheet], [get_next_id], [save_entry],
      [remove_entry_from_gsheet] and the main page's form and log;
    - a concrete [PyLib] on which everything computes;
    - the vocabulary of the contract and sample ledgers;
    - the properties.

    What the model fixes about the libraries:
    - a worksheet cell is the value [get_all_records] returns for it, its
      text is [str] of that value (as it is for the cells [append_row]
      writes; a cell typed in as [03], which reads as 3, has no
      counterpart), and [append_row] keeps the values it is given;
    - [get_all_records] fills every row up to the widest one, the label
      row included; the labels it ends up with are taken to be distinct
      (a read that refuses a label row is a read that raises);
    - a frame keeps each cell as the record has it.  pandas gives each
      column one dtype and turns the integers of a column into floats
      when the column holds numbers only and a float among them; what
      is stated about the cells of a snapshot is stated for sheets
      without such a column ([dtypes_settled], [fits_ledger]) or up to
      the way a number is written ([same_cell]);
    - floats are exact rationals with the two infinities and [NaN];
    - rows with equal keys keep their order when sorted;
    - each call into the spreadsheet service either answers or raises,
      as [Net] says, and a call that raises leaves the sheet alone. *)

From Stdlib Require Import ZArith QArith String Ascii List DecimalString Sorted.
From stdpp Require Import gmap strings list fin_maps.

Local Open Scope Z_scope.
Local Open Scope string_scope.
Local Open Scope list_scope.

(** ** Python values *)

(** A Python float.  Finite floats are identified with the rational they
    print as; rounding to 53 bits is outside the model. *)
Inductive pyfloat :=
| NaN
| NegInf
| Fin (q : Q)
| PosInf.

(** The cell values the code manipulates: [gspread] hands out [int],
    [float] and [str] objects, and so does the entry dictionary. *)
Inductive value :=
| VInt (n : Z)
| VFloat (x : pyfloat)
| VStr (s : string).

Inductive exn :=
| APIError (msg : string)
| KeyError (key : string)
| ValueError (msg : string)
| TypeError (msg : string)
| OverflowError (msg : string).

Inductive result (A : Type) :=
| Ok (a : A)
| Raise (e : exn).
Arguments Ok {A} a.
Arguments Raise {A} e.

#[global] Instance result_bind : MBind result := fun A B k r =>
  match r with
  | Ok a => k a
  | Raise e => Raise e
  end.

(** The library primitives whose exact definition lies outside the
    repository: the text-to-number conversion behind [pd.to_numeric],
    [repr] of a float, and [str.lower]. *)
Class PyLib := {
  float_of_str : string -> pyfloat;
  float_repr : pyfloat -> string;
  str_lower : string -> string
}.

Definition str_of_int (n : Z) : string := NilZero.string_of_int (Z.to_int n).

Section Values.
Context `{PyLib}.

(** [str(v)] *)
Definition str (v : value) : string :=
  match v with
  | VInt n => str_of_int n
  | VFloat x => float_repr x
  | VStr s => s
  end.

(** One element of [pd.to_numeric(_, errors='coerce')]: what cannot be
    read as a number becomes [NaN]. *)
Definition to_numeric (v : value) : pyfloat :=
  match v with
  | VInt n => Fin (inject_Z n)
  | VFloat x => x
  | VStr s => float_of_str s
  end.
End Values.

Definition notna (x : pyfloat) : bool :=
  match x with
  | NaN => false
  | _ => true
  end.

(** Order of the extended reals, on floats that are not [NaN]. *)
Definition float_le (x y : pyfloat) : bool :=
  match x, y with
  | NegInf, _ => true
  | _, PosInf => true
  | Fin p, Fin q => Qle_bool p q
  | _, _ => false
  end.

(** The larger of two floats, a [NaN] giving way to the other one. *)
Definition nanmax (x y : pyfloat) : pyfloat :=
  match x, y with
  | NaN, _ => y
  | _, NaN => x
  | _, _ => if float_le x y then y else x
  end.

(** [Series.max()], which skips [NaN] and is [NaN] when nothing else is
    left. *)
Definition series_max (xs : list pyfloat) : pyfloat := foldr nanmax NaN xs.

Definition Qtrunc (q : Q) : Z := Z.quot (Qnum q) (Zpos (Qden q)).

(** [int(x)] on a float: truncation toward zero. *)
Definition py_int (x : pyfloat) : result Z :=
  match x with
  | Fin q => Ok (Qtrunc q)
  | NaN => Raise (ValueError "cannot convert float NaN to integer")
  | NegInf | PosInf =>
      Raise (OverflowError "cannot convert float infinity to integer")
  end.

(** ** Data frames *)

Definition HEADERS : list string :=
  ["ID"; "Timestamp"; "Cashier"; "Bank"; "Credit"].

(** A frame is its column labels and its rows, each row holding one cell
    per column in column order. *)
Record DataFrame := {
  columns : list string;
  rows : list (list value)
}.

(** [pd.DataFrame(columns=cols)] *)
Definition empty_frame (cols : list string) : DataFrame :=
  {| columns := cols; rows := [] |}.

(** [df.empty]: no rows or no columns. *)
Definition df_empty (df : DataFrame) : bool :=
  match rows df, columns df with
  | [], _ | _, [] => true
  | _, _ => false
  end.

Fixpoint index_of (name : string) (cols : list string) : option nat :=
  match cols with
  | [] => None
  | c :: cols' =>
      if String.eqb c name then Some 0%nat else S <$> index_of name cols'
  end.

(** [name in df.columns] *)
Definition has_column (name : string) (df : DataFrame) : bool :=
  match index_of name (columns df) with
  | Some _ => true
  | None => false
  end.

(** The cell of a row at a position; a cell the row lacks reads as the
    missing value. *)
Definition cell (i : nat) (row : list value) : value :=
  default (VFloat NaN) (row !! i).

(** [df[name]]: the cells of the column with that label, top to bottom
    (no cell when the frame lacks the label, where pandas raises). *)
Definition get_column (name : string) (df : DataFrame) : list value :=
  match index_of name (columns df) with
  | Some i => cell i <$> rows df
  | None => []
  end.

Section NextId.
Context `{PyLib}.

Definition get_next_id (df : DataFrame) : result Z :=
  if df_empty df || negb (has_column "ID" df) then Ok 1
  else
    let max_id := series_max (to_numeric <$> get_column "ID" df) in
    if notna max_id then n ← py_int max_id; Ok (n + 1) else Ok 1.
End NextId.

(** ** The worksheet *)

(** A worksheet is its grid, top row first; row 1 holds the column
    labels.  A cell is the Python value [get_all_records] yields for it
    and is taken to show the text [str] gives that value, which is what
    a cell written by [append_row] shows. *)
Abbreviation Worksheet := (list (list value)).

(** How the spreadsheet service answers during one call of the ledger
    service: for each API method, the error it fails with, if any. *)
Record Net := {
  get_all_records_fault : option string;
  append_row_fault : option string;
  find_fault : option string;
  delete_rows_fault : option string
}.

Definition online : Net :=
  {| get_all_records_fault := None; append_row_fault := None;
     find_fault := None; delete_rows_fault := None |}.

Definition api_call {A} (fault : option string) (answer : A) : result A :=
  match fault with
  | Some msg => Raise (APIError msg)
  | None => Ok answer
  end.

(** A record of [get_all_records]: the cells of one data row keyed by the
    labels of row 1, in column order. *)
Abbreviation record := (list (string * value)).

Section Gspread.
Context `{PyLib}.

(** The length of the longest row of a grid. *)
Definition width (grid : list (list value)) : nat :=
  max_list (length <$> grid).

(** [fill_gaps]: the grid made rectangular, every row filled up with
    blank cells to the width of the widest one.  A blank cell reads as
    the empty string. *)
Definition fill_gaps (grid : list (list value)) : list (list value) :=
  resize (width grid) (VStr "") <$> grid.

(** [ws.get_all_records()]: every row under the label row, keyed by the
    labels.  The rows are those of the filled grid, so that a data row
    wider than the label row brings in columns labelled by the empty
    string. *)
Definition get_all_records (net : Net) (ws : Worksheet)
    : result (list record) :=
  api_call (get_all_records_fault net)
    match fill_gaps ws with
    | [] => []
    | header :: data => (λ r, zip (str <$> header) r) <$> data
    end.

(** [ws.append_row(values)]: one more row under the last one. *)
Definition append_row (net : Net) (ws : Worksheet) (values : list value)
    : result Worksheet :=
  api_call (append_row_fault net) (ws ++ [values]).

(** The text shown in column [col] (counted from 1) of a grid row. *)
Definition cell_text (col : nat) (r : list value) : string :=
  str (default (VStr "") (r !! (col - 1)%nat)).

Fixpoint find_from (query : string) (col row_number : nat)
    (grid : list (list value)) : option nat :=
  match grid with
  | [] => None
  | r :: below =>
      if String.eqb (cell_text col r) query then Some row_number
      else find_from query col (S row_number) below
  end.

(** [ws.find(query, in_column=col)]: the number (from 1) of the first
    row whose cell in that column shows exactly [query]. *)
Definition ws_find (net : Net) (query : string) (col : nat)
    (ws : Worksheet) : result (option nat) :=
  api_call (find_fault net) (find_from query col 1 ws).

(** [ws.delete_rows(n)]: row [n] (counted from 1) leaves the grid. *)
Definition delete_rows (net : Net) (n : nat) (ws : Worksheet)
    : result Worksheet :=
  api_call (delete_rows_fault net) (delete (n - 1)%nat ws).
End Gspread.

(** [pd.DataFrame(records)]: the labels of the records as columns, one
    row per record, each cell as the record has it.  (This is the frame
    pandas builds when no column holds an integer beside a float and no
    text; in such a column pandas turns the integers into floats.) *)
Definition pd_DataFrame (records : list record) : DataFrame :=
  {| columns := match records with
                | [] => []
                | r :: _ => r.*1
                end;
     rows := (λ r : record, r.*2) <$> records |}.

(** ** What the page shows *)

(** The texts handed to [st.error], [st.success] and [st.warning], each
    with the values its f-string interpolates. *)
Inductive message :=
| FailedToLoad (e : exn)
| FailedToSave (e : exn)
| Saved (entry_id : Z) (bank : value) (credit : pyfloat)
| Deleted (entry_id : value)
| CouldNotFind (entry_id : value)
| DeleteFailed (e : exn)
| PleaseSelectBank
| PleaseEnterCredit.

Inductive st_event :=
| st_error (m : message)
| st_success (m : message)
| st_warning (m : message).

(** ** The ledger service *)

Section Ledger.
Context `{PyLib}.

(** [df[name] = df[name].astype(str)] *)
Definition astype_str (name : string) (df : DataFrame) : DataFrame :=
  match index_of name (columns df) with
  | Some i =>
      {| columns := columns df;
         rows := (λ r, <[i := VStr (str (cell i r))]> r) <$> rows df |}
  | None => df
  end.

Definition load_data_from_gsheet (net : Net) (ws : Worksheet)
    : DataFrame * list st_event :=
  match get_all_records net ws with
  | Ok records =>
      let df := pd_DataFrame records in
      if df_empty df then (empty_frame HEADERS, [])
      else if has_column "ID" df then (astype_str "ID" df, [])
      else (df, [])
  | Raise e => (empty_frame HEADERS, [st_error (FailedToLoad e)])
  end.

(** [entry[key]] *)
Definition getitem (entry : gmap string value) (key : string)
    : result value :=
  match entry !! key with
  | Some v => Ok v
  | None => Raise (KeyError key)
  end.

(** The operand of the format specification [:,.2f], which numbers
    accept and strings do not. *)
Definition format_2f (v : value) : result pyfloat :=
  match v with
  | VInt n => Ok (Fin (inject_Z n))
  | VFloat x => Ok x
  | VStr _ =>
      Raise (ValueError "Unknown format code 'f' for object of type 'str'")
  end.

Record SaveOutcome := {
  saved : bool;                       (* the value returned *)
  sheet_after_save : Worksheet;
  entry_after_save : gmap string value;  (* the caller's dictionary *)
  shown_by_save : list st_event
}.

Definition save_entry (net : Net) (ws : Worksheet) (df : DataFrame)
    (entry : gmap string value) : SaveOutcome :=
  match get_next_id df with
  | Ok entry_id =>
      let entry := <["ID" := VInt entry_id]> entry in
      let data_row := (λ h, default (VStr "") (entry !! h)) <$> HEADERS in
      match append_row net ws data_row with
      | Ok ws' =>
          match
            bank ← getitem entry "Bank";
            credit ← getitem entry "Credit" ≫= format_2f;
            Ok (Saved entry_id bank credit)
          with
          | Ok m => {| saved := true; sheet_after_save := ws';
                       entry_after_save := entry;
                       shown_by_save := [st_success m] |}
          | Raise e => {| saved := false; sheet_after_save := ws';
                          entry_after_save := entry;
                          shown_by_save := [st_error (FailedToSave e)] |}
          end
      | Raise e => {| saved := false; sheet_after_save := ws;
                      entry_after_save := entry;
                      shown_by_save := [st_error (FailedToSave e)] |}
      end
  | Raise e => {| saved := false; sheet_after_save := ws;
                  entry_after_save := entry;
                  shown_by_save := [st_error (FailedToSave e)] |}
  end.

Definition remove_entry_from_gsheet (net : Net) (ws : Worksheet)
    (entry_id : value) : bool * message * Worksheet :=
  match ws_find net (str entry_id) 1 ws with
  | Ok (Some row) =>
      match delete_rows net row ws with
      | Ok ws' => (true, Deleted entry_id, ws')
      | Raise e => (false, DeleteFailed e, ws)
      end
  | Ok None => (false, CouldNotFind entry_id, ws)
  | Raise e => (false, DeleteFailed e, ws)
  end.
End Ledger.

(** ** The main page *)

(** [needle in hay] on strings. *)
Fixpoint contains (needle hay : string) : bool :=
  String.prefix needle hay ||
  match hay with
  | EmptyString => false
  | String _ hay' => contains needle hay'
  end.

Definition is_str (v : value) : bool :=
  match v with
  | VStr _ => true
  | _ => false
  end.

(** The number a cell that is not a string stands for. *)
Definition as_float (v : value) : pyfloat :=
  match v with
  | VInt n => Fin (inject_Z n)
  | VFloat x => x
  | VStr _ => NaN
  end.

(** The order [sort_values] puts the cells of one column in: strings by
    code point, numbers by value with the missing value last when
    descending. *)
Definition key_le (a b : value) : bool :=
  match a, b with
  | VStr s, VStr t => String.leb s t
  | _, _ =>
      match as_float a, as_float b with
      | NaN, _ => true
      | _, NaN => false
      | x, y => float_le x y
      end
  end.

Section Sorting.
Context {A : Type} (key : A -> value).

Fixpoint insert_desc (x : A) (sorted : list A) : list A :=
  match sorted with
  | [] => [x]
  | y :: sorted' =>
      if key_le (key y) (key x) then x :: sorted
      else y :: insert_desc x sorted'
  end.

(** Descending by key; rows with equal keys keep their order. *)
Definition sort_desc (l : list A) : list A := foldr insert_desc [] l.
End Sorting.

(** [df.sort_values(by=name, ascending=False).reset_index(drop=True)] *)
Definition sort_values_desc (name : string) (df : DataFrame)
    : result DataFrame :=
  match index_of name (columns df) with
  | Some i =>
      let keys := cell i <$> rows df in
      if forallb is_str keys || forallb (λ v, negb (is_str v)) keys then
        Ok {| columns := columns df; rows := sort_desc (cell i) (rows df) |}
      else
        Raise (TypeError
                 "'<' not supported between instances of 'str' and 'int'")
  | None => Raise (KeyError name)
  end.

(** What [st.session_state] keeps between runs of the page. *)
Record Session := {
  selected_cashier : string;
  selected_bank : option string
}.

(** The content of a form widget once the form has been submitted:
    [st.form(_, clear_on_submit=True)] puts the widget back to its
    default. *)
Definition widget_after_submit {A} (clear_on_submit : bool)
    (default_value submitted : A) : A :=
  if clear_on_submit then default_value else submitted.

Section MainPage.
Context `{PyLib}.

(** The dictionary built for a submitted deposit:
    [{"Timestamp": timestamp, "Bank": bank, "Credit": credit,
      "Cashier": cashier}]. *)
Definition entry_data (timestamp bank : string) (credit : pyfloat)
    (cashier : string) : gmap string value :=
  <["Timestamp" := VStr timestamp]>
    (<["Bank" := VStr bank]>
       (<["Credit" := VFloat credit]> {["Cashier" := VStr cashier]})).

Record SubmitOutcome := {
  sheet_after_submit : Worksheet;
  session_after_submit : Session;
  credit_after_submit : option pyfloat;  (* the amount widget *)
  shown_by_submit : list st_event
}.

(** The body of [with st.form("entry_form", clear_on_submit=True)]
    when "Submit Entry" is pressed with [credit] in the amount widget
    at time [now]. *)
Definition submit_entry_form (net : Net) (ws : Worksheet) (ss : Session)
    (credit : option pyfloat) (now : string) : SubmitOutcome :=
  let '(ws', shown) :=
    match selected_bank ss with
    | None | Some "" => (ws, [st_warning PleaseSelectBank])
    | Some bank =>
        match credit with
        | None => (ws, [st_warning PleaseEnterCredit])
        | Some amount =>
            let '(df_for_id, shown_by_load) :=
              load_data_from_gsheet net ws in
            let out :=
              save_entry net ws df_for_id
                (entry_data now bank amount (selected_cashier ss)) in
            (sheet_after_save out, shown_by_load ++ shown_by_save out)
        end
    end in
  {| sheet_after_submit := ws';
     session_after_submit := ss;
     credit_after_submit := widget_after_submit true None credit;
     shown_by_submit := shown |}.

(** [' '.join(row.astype(str))] *)
Definition row_text (r : list value) : string :=
  String.concat " " (str <$> r).

(** The search box applied to a snapshot. *)
Definition search_entries (search_query : string) (df : DataFrame)
    : DataFrame :=
  match search_query with
  | EmptyString => df
  | _ =>
      {| columns := columns df;
         rows := List.filter
                   (λ r, contains (str_lower search_query)
                                  (str_lower (row_text r)))
                   (rows df) |}
  end.

(** The table under "Entries Log". *)
Definition entries_log (net : Net) (ws : Worksheet)
    (search_query : string) : result DataFrame * list st_event :=
  let '(df, shown) := load_data_from_gsheet net ws in
  (sort_values_desc "ID" (search_entries search_query df), shown).

(** "Confirm Deletion" for the row of the shown table at position
    [selected_row_index]. *)
Definition confirm_deletion (net : Net) (ws : Worksheet)
    (display_df : DataFrame) (selected_row_index : nat)
    : option (bool * message * Worksheet) :=
  r ← rows display_df !! selected_row_index;
  i ← index_of "ID" (columns display_df);
  Some (remove_entry_from_gsheet net ws (cell i r)).
End MainPage.

(** ** A concrete library: decimal literals and ASCII letters

    An instance of [PyLib] on which the definitions run: numbers are
    read and printed in positional decimal notation ([inf], [nan] and
    signs included; exponents and surrounding blanks are not), and
    [lower] maps the letters A to Z. *)

Definition digit_of (c : ascii) : option Z :=
  let n := Z.of_N (N_of_ascii c) in
  if (48 <=? n)%Z && (n <=? 57)%Z then Some (n - 48) else None.

Fixpoint read_decimal (s : string) (m : Z) (d : positive)
    (dot digit : bool) : option Q :=
  match s with
  | EmptyString => if digit then Some (m # d) else None
  | String c s' =>
      match digit_of c with
      | Some k =>
          read_decimal s' (10 * m + k) (if dot then 10 * d else d)%positive
                       dot true
      | None =>
          if Ascii.eqb c "." && negb dot then read_decimal s' m d true digit
          else None
      end
  end.

Definition read_unsigned (s : string) : pyfloat :=
  if String.eqb s "inf" then PosInf
  else match read_decimal s 0 1 false false with
       | Some q => Fin q
       | None => NaN
       end.

Definition float_neg (x : pyfloat) : pyfloat :=
  match x with
  | NaN => NaN
  | NegInf => PosInf
  | Fin q => Fin (- q)
  | PosInf => NegInf
  end.

Definition decimal_of_str (s : string) : pyfloat :=
  match s with
  | String "-" s' => float_neg (read_unsigned s')
  | String "+" s' => read_unsigned s'
  | _ => read_unsigned s
  end.

Definition digit_char (k : Z) : ascii := ascii_of_N (Z.to_N (48 + k)).

Fixpoint fraction_digits (fuel : nat) (r d : Z) : string :=
  match fuel with
  | O => ""
  | S fuel' =>
      if (r =? 0)%Z then ""
      else String (digit_char (10 * r / d))
                  (fraction_digits fuel' (10 * r mod d) d)
  end.

Definition decimal_repr (x : pyfloat) : string :=
  match x with
  | NaN => "nan"
  | NegInf => "-inf"
  | PosInf => "inf"
  | Fin q =>
      let a := Z.abs (Qnum q) in
      let d := Zpos (Qden q) in
      let frac := fraction_digits 17 (a mod d) d in
      (if (Qnum q <? 0)%Z then "-" else "") +:+ str_of_int (a / d) +:+ "." +:+
      (if String.eqb frac "" then "0" else frac)
  end.

Definition ascii_lower (c : ascii) : ascii :=
  let n := N_of_ascii c in
  if (65 <=? n)%N && (n <=? 90)%N then ascii_of_N (n + 32) else c.

Fixpoint lower (s : string) : string :=
  match s with
  | EmptyString => EmptyString
  | String c s' => String (ascii_lower c) (lower s')
  end.

#[global] Instance decimal_lib : PyLib :=
  {| float_of_str := decimal_of_str;
     float_repr := decimal_repr;
     str_lower := lower |}.

(** ** Vocabulary of the contract *)

(** Under a key, [x] may be listed before [y]: the key of [y] is not
    above the key of [x]. *)
Definition listed_before {A} (key : A → value) (x y : A) : Prop :=
  key_le (key y) (key x) = true.

(** The label row of the ledger. *)
Definition header_row : list value := VStr <$> HEADERS.

(** The grid row of one entry. *)
Definition entry_row (id : value) (timestamp cashier bank : string)
    (credit : pyfloat) : list value :=
  [id; VStr timestamp; VStr cashier; VStr bank; VFloat credit].

(** Every row of a frame has one cell per column. *)
Definition rectangular (df : DataFrame) : Prop :=
  Forall (λ r, length r = length (columns df)) (rows df).

Definition is_int (v : value) : bool :=
  match v with
  | VInt _ => true
  | _ => false
  end.

Definition is_float (v : value) : bool :=
  match v with
  | VFloat _ => true
  | _ => false
  end.

(** The cells of column [j] (counted from 0) of a grid, a cell a row
    lacks being blank. *)
Definition grid_column (j : nat) (grid : list (list value)) : list value :=
  (λ r, default (VStr "") (r !! j)) <$> grid.

(** A column holding numbers only, integers and floats among them: the
    columns in which pandas turns the integers into floats. *)
Definition mixes_numbers (col : list value) : bool :=
  forallb (λ v, negb (is_str v)) col && existsb is_int col
  && existsb is_float col.

(** No column of the grid mixes integers and floats: pandas keeps every
    cell as it is read. *)
Definition dtypes_settled (grid : list (list value)) : Prop :=
  ∀ j, mixes_numbers (grid_column j grid) = false.


(** A data row as [save_entry] writes it for the form: an integer id,
    three texts and an amount. *)
Definition is_ledger_entry (r : list value) : bool :=
  match r with
  | [VInt _; VStr _; VStr _; VStr _; credit] => negb (is_str credit)
  | _ => false
  end.

(** Two cells that differ at most in the way a number is written: the
    same cell, or two numbers of the same value, as [100] and
    [100.0]. *)
Definition same_cell (v w : value) : Prop :=
  v = w ∨ (is_str v = false ∧ is_str w = false ∧ as_float v = as_float w).

(** Two listed entries with the same id whose other fields differ at
    most in the way numbers are written. *)
Definition same_entry (r r' : list value) : Prop :=
  cell 0 r = cell 0 r' ∧ Forall2 same_cell r r'.

Section Contract.
Context `{PyLib}.

(** The ids of a snapshot that read as numbers. *)
Definition numeric_ids (df : DataFrame) : list pyfloat :=
  List.filter notna (to_numeric <$> get_column "ID" df).

(** [m] is a largest element of [xs]. *)
Definition is_maximum (m : pyfloat) (xs : list pyfloat) : Prop :=
  m ∈ xs ∧ Forall (λ x, float_le x m = true) xs.

(** The next id is the largest numeric id plus one, whatever that
    largest id is. *)
Definition next_id_is_max_plus_one (df : DataFrame) : Prop :=
  ∀ q, is_maximum (Fin q) (numeric_ids df) →
       ∃ n, get_next_id df = Ok n ∧ (inject_Z n == q + 1)%Q.

(** A grid row shows the text of [entry_id] in its first column. *)
Definition id_matches (entry_id : value) (r : list value) : Prop :=
  cell_text 1 r = str entry_id.

(** What a data row of the ledger reads as in a snapshot of [w]
    columns: [w] cells, the first one as text. *)
Definition loaded_row (w : nat) (r : list value) : list value :=
  let r := resize w (VStr "") r in
  <[0%nat := VStr (str (cell 0 r))]> r.


(** [needle] occurs in [hay]. *)
Definition Substring (needle hay : string) : Prop :=
  ∃ before after, hay = before +:+ needle +:+ after.



(** A write failure is reported and leaves the form as the user
    filled it in. *)
Definition write_failure_keeps_form (net : Net) (ws : Worksheet)
    (ss : Session) (amount : pyfloat) (now : string) : Prop :=
  ∀ msg, append_row_fault net = Some msg →
    let out := submit_entry_form net ws ss (Some amount) now in
    st_error (FailedToSave (APIError msg)) ∈ shown_by_submit out ∧
    session_after_submit out = ss ∧
    credit_after_submit out = Some amount.

(** A frame lists its entries from the largest id down, ids being
    compared as the numbers they read as. *)
Definition descending_by_id (df : DataFrame) : Prop :=
  ∀ i j x y,
    get_column "ID" df !! i = Some x → get_column "ID" df !! j = Some y →
    (i < j)%nat → float_le (to_numeric y) (to_numeric x) = true.

(** The uniqueness invariant of the ledger, for one id. *)
Definition at_most_one_match (entry_id : value) (ws : Worksheet) : Prop :=
  ∀ i j r r', ws !! i = Some r → ws !! j = Some r' →
              id_matches entry_id r → id_matches entry_id r' → i = j.

(** Once a deletion of [entry_id] went through, the next one finds
    nothing and changes nothing. *)
Definition second_delete_finds_nothing (ws : Worksheet)
    (entry_id : value) : Prop :=
  ∀ m ws1,
    remove_entry_from_gsheet online ws entry_id = (true, m, ws1) →
    remove_entry_from_gsheet online ws1 entry_id =
      (false, CouldNotFind entry_id, ws1).
End Contract.

(** ** Sample ledgers *)

(** Two deposits, numbered 1 and 3. *)
Definition sample_sheet : Worksheet :=
  [header_row;
   entry_row (VInt 1) "2024-05-02 09:15:00" "Emush" "Abay" (Fin 100);
   entry_row (VInt 3) "2024-05-02 09:40:10" "Tigist" "Nib" (Fin 50)].

(** A snapshot whose largest id has a fractional part. *)
Definition fractional_snapshot : DataFrame :=
  {| columns := HEADERS;
     rows := [entry_row (VStr "1") "2024-05-02 09:15:00" "Emush" "Abay"
                        (Fin 100);
              entry_row (VStr "3.5") "2024-05-02 09:40:10" "Tigist" "Nib"
                        (Fin 50)] |}.

(** A snapshot none of whose ids reads as a number. *)
Definition stray_snapshot : DataFrame :=
  {| columns := HEADERS;
     rows := [entry_row (VStr "n/a") "2024-05-02 09:15:00" "Emush" "Abay"
                        (Fin 100);
              entry_row (VStr "") "" "" "" NaN] |}.

(** The id 3 was handed out twice. *)
Definition duplicated_sheet : Worksheet :=
  [header_row;
   entry_row (VInt 3) "2024-05-02 09:40:10" "Tigist" "Nib" (Fin 50);
   entry_row (VInt 3) "2024-05-02 09:40:11" "Adanu" "CBE" (Fin 75)].

(** The service answers every call with an error. *)
Definition offline (msg : string) : Net :=
  {| get_all_records_fault := Some msg; append_row_fault := Some msg;
     find_fault := Some msg; delete_rows_fault := Some msg |}.

(** The deposit of the scenario, before it has an id. *)
Definition sample_entry : gmap string value :=
  entry_data "2024-05-03 08:00:00" "Abay" (Fin 250.5) "Misrak".

(** The ledger has reached its tenth entry; the first eight are gone. *)
Definition nine_ten_sheet : Worksheet :=
  [header_row;
   entry_row (VInt 9) "2024-05-02 11:05:00" "Emush" "Awash" (Fin 20);
   entry_row (VInt 10) "2024-05-02 11:30:00" "Emush" "CBE" (Fin 35)].

(** Reads are answered, appends fail. *)
Definition append_down (msg : string) : Net :=
  {| get_all_records_fault := None; append_row_fault := Some msg;
     find_fault := None; delete_rows_fault := None |}.

(** Misrak has picked the bank Abay. *)
Definition sample_session : Session :=
  {| selected_cashier := "Misrak"; selected_bank := Some "Abay" |}.

(** A snapshot holding an id that reads as infinity. *)
Definition unbounded_snapshot : DataFrame :=
  {| columns := HEADERS;
     rows := [entry_row (VStr "7") "2024-05-02 09:15:00" "Emush" "Abay"
                        (Fin 100);
              entry_row (VStr "inf") "2024-05-02 09:40:10" "Tigist" "Nib"
                        (Fin 50)] |}.

(** A sheet nothing was written to yet, the label row neither. *)
Definition blank_sheet : Worksheet := [].

(** A sheet with a short row and a row wider than the label row. *)
Definition ragged_sheet : Worksheet :=
  [header_row;
   [VInt 1; VStr "2024-05-02 09:15:00"];
   entry_row (VInt 2) "2024-05-02 09:40:10" "Tigist" "Nib" (Fin 50)
     ++ [VStr "stray"]].

(** A deposit whose dictionary lacks the bank. *)
Definition bankless_entry : gmap string value :=
  <["Timestamp" := VStr "2024-05-03 08:00:00"]>
    (<["Credit" := VFloat (Fin 250.5)]> {["Cashier" := VStr "Misrak"]}).

(** Appends are answered, reads fail. *)
Definition read_down (msg : string) : Net :=
  {| get_all_records_fault := Some msg; append_row_fault := None;
     find_fault := None; delete_rows_fault := None |}.

(** ** The pages and the script

    One run of the script is one pass from its first line to its end, to
    [st.rerun()], to [st.stop()] or to an exception: it reads what the
    browser holds (the button that set the run off, the widgets), talks
    to the service, and leaves a session, a sheet and boxes behind.
    [st.session_state] is absent as a whole before a cashier is
    selected; a bank that is not selected and a bank entry that is
    absent are the same [None].  A rerun is the next run, set off by no
    button. *)

Fixpoint insert_sorted (x : string) (l : list string) : list string :=
  match l with
  | [] => [x]
  | y :: l' => if String.leb x y then x :: l else y :: insert_sorted x l'
  end.

(** [sorted(names)]: ascending by code point. *)
Definition py_sorted (names : list string) : list string :=
  foldr insert_sorted [] names.

Definition CASHIERS : list string :=
  py_sorted ["Misrak"; "Emush"; "Adanu"; "Yemisrach"; "Ejigayehu"; "Tigist"].

Definition BANKS : list string :=
  py_sorted
    ["Abay"; "Amhara"; "Awash"; "Bank of Abyssinia"; "Bunna";
     "CBE"; "Dashen"; "Enat"; "Hibret"; "Lion"; "Nib"; "Telebirr";
     "Wegagen"; "Zemen"].

(** The buttons of the two pages.  The cashier and bank buttons are
    keyed by the name they stand for, the confirmation button by its
    label, which spells the id it is about. *)
Inductive widget :=
| CashierButton (cashier : string)
| ChangeCashierButton
| BankButton (bank : string)
| SubmitEntryButton
| ConfirmDeletionButton (selected_id : string)
| LogOutButton.

#[global] Instance widget_eq_dec : EqDecision widget.
Proof. solve_decision. Defined.

(** What one run of the script reads from the browser and the clock. *)
Record Inputs := {
  pressed : option widget;        (* the button that set the run off *)
  credit_input : option pyfloat;  (* the amount widget *)
  search_input : string;          (* the search box *)
  selection : option (list nat);  (* the selected rows of the table *)
  clock : string                  (* [datetime.now()], formatted *)
}.

(** How the spreadsheet service answers during one run: to the
    connection, to the calls of the form, to the read of the log and to
    the calls of the deletion. *)
Record Service := {
  connect_fault : option string;
  form_net : Net;
  log_net : Net;
  deletion_net : Net
}.

(** The way a run ends: at the end of the script, in [st.rerun()], in
    [st.stop()], or in an exception nothing catches. *)
Inductive ending :=
| Finished
| Rerun
| Stopped
| Crashed (e : exn).

Inductive page_event :=
| ledger_box (e : st_event)
| st_error_failed_to_connect (e : exn)
| st_warning_selected (selected_id : value)
| st_info_no_entry_selected
| st_success_logged_out.

(** What a run leaves behind.  The session is absent as long as no
    cashier is selected. *)
Record Run := {
  state_after : option Session;
  sheet_after : Worksheet;
  boxes : list page_event;
  ending_of : ending
}.

(** A loop over buttons: the name of the first button that is the
    pressed one. *)
Fixpoint clicked_among (button : string → widget) (names : list string)
    (pressed : option widget) : option string :=
  match names with
  | [] => None
  | name :: names' =>
      if decide (pressed = Some (button name)) then Some name
      else clicked_among button names' pressed
  end.

Definition connect_to_gsheet (sv : Service) (ws : Worksheet)
    : result Worksheet :=
  api_call (connect_fault sv) ws.

Definition cashier_selection_page (ws : Worksheet) (inp : Inputs) : Run :=
  match clicked_among CashierButton CASHIERS (pressed inp) with
  | Some cashier =>
      {| state_after := Some {| selected_cashier := cashier;
                                selected_bank := None |};
         sheet_after := ws; boxes := []; ending_of := Rerun |}
  | None =>
      {| state_after := None; sheet_after := ws; boxes := [];
         ending_of := Finished |}
  end.

(** The "Log Out" button, which the script reaches last. *)
Definition log_out_section (inp : Inputs) (r : Run) : Run :=
  if decide (pressed inp = Some LogOutButton) then
    {| state_after := None; sheet_after := sheet_after r;
       boxes := boxes r ++ [st_success_logged_out]; ending_of := Rerun |}
  else r.

Section Pages.
Context `{PyLib}.

(** [display_df.iloc[selection[0]]["ID"]], when all of it is there. *)
Definition selected_entry_id (display_df : DataFrame)
    (selection : option (list nat)) : option value :=
  selected ← selection;
  selected_row_index ← head selected;
  r ← rows display_df !! selected_row_index;
  i ← index_of "ID" (columns display_df);
  Some (cell i r).

Definition main_app_page (sv : Service) (ws : Worksheet) (ss : Session)
    (inp : Inputs) : Run :=
  if decide (pressed inp = Some ChangeCashierButton) then
    {| state_after := None; sheet_after := ws; boxes := [];
       ending_of := Rerun |}
  else
    match clicked_among BankButton BANKS (pressed inp) with
    | Some bank =>
        {| state_after := Some {| selected_cashier := selected_cashier ss;
                                  selected_bank := Some bank |};
           sheet_after := ws; boxes := []; ending_of := Rerun |}
    | None =>
        let '(ws1, boxes1) :=
          if decide (pressed inp = Some SubmitEntryButton) then
            let out := submit_entry_form (form_net sv) ws ss
                         (credit_input inp) (clock inp) in
            (sheet_after_submit out, ledger_box <$> shown_by_submit out)
          else (ws, []) in
        let '(log, shown_by_load) :=
          entries_log (log_net sv) ws1 (search_input inp) in
        let boxes2 := boxes1 ++ (ledger_box <$> shown_by_load) in
        match log with
        | Ok display_df =>
            match selected_entry_id display_df (selection inp) with
            | Some selected_id =>
                let boxes3 := boxes2 ++ [st_warning_selected selected_id] in
                if decide (pressed inp =
                           Some (ConfirmDeletionButton (str selected_id)))
                then
                  match remove_entry_from_gsheet (deletion_net sv) ws1
                          selected_id with
                  | (true, m, ws2) =>
                      {| state_after := Some ss; sheet_after := ws2;
                         boxes := boxes3 ++ [ledger_box (st_success m)];
                         ending_of := Rerun |}
                  | (false, m, ws2) =>
                      log_out_section inp
                        {| state_after := Some ss; sheet_after := ws2;
                           boxes := boxes3 ++ [ledger_box (st_error m)];
                           ending_of := Finished |}
                  end
                else
                  log_out_section inp
                    {| state_after := Some ss; sheet_after := ws1;
                       boxes := boxes3; ending_of := Finished |}
            | None =>
                log_out_section inp
                  {| state_after := Some ss; sheet_after := ws1;
                     boxes := boxes2 ++ [st_info_no_entry_selected];
                     ending_of := Finished |}
            end
        | Raise e =>
            {| state_after := Some ss; sheet_after := ws1; boxes := boxes2;
               ending_of := Crashed e |}
        end
    end.

(** One run of the script. *)
Definition main (sv : Service) (ws : Worksheet) (state : option Session)
    (inp : Inputs) : Run :=
  match connect_to_gsheet sv ws with
  | Ok worksheet =>
      match state with
      | None => cashier_selection_page worksheet inp
      | Some ss => main_app_page sv worksheet ss inp
      end
  | Raise e =>
      {| state_after := state; sheet_after := ws;
         boxes := [st_error_failed_to_connect e]; ending_of := Stopped |}
  end.

(** Runs of the script one after the other, each on the sheet and the
    session the one before left. *)
Fixpoint run_script (steps : list (Service * Inputs)) (ws : Worksheet)
    (state : option Session) : Worksheet * option Session :=
  match steps with
  | [] => (ws, state)
  | (sv, inp) :: steps' =>
      let r := main sv ws state inp in
      run_script steps' (sheet_after r) (state_after r)
  end.
End Pages.

(** A service that answers every call. *)
Definition all_up : Service :=
  {| connect_fault := None; form_net := online; log_net := online;
     deletion_net := online |}.

(** A run nothing set off, with empty widgets. *)
Definition idle : Inputs :=
  {| pressed := None; credit_input := None; search_input := "";
     selection := None; clock := "2024-05-03 08:00:00" |}.

Definition press (w : widget) (inp : Inputs) : Inputs :=
  {| pressed := Some w; credit_input := credit_input inp;
     search_input := search_input inp; selection := selection inp;
     clock := clock inp |}.

(** The session holds a listed cashier and, if any, a listed bank. *)
Definition session_in_vocabulary (state : option Session) : Prop :=
  match state with
  | None => True
  | Some ss =>
      selected_cashier ss ∈ CASHIERS ∧
      ∀ bank, selected_bank ss = Some bank → bank ∈ BANKS
  end.

(** A grid row is a deposit of a listed cashier with a listed bank,
    under an integer id. *)
Definition entry_in_vocabulary (r : list value) : Prop :=
  ∃ entry_id timestamp cashier bank credit,
    r = entry_row (VInt entry_id) timestamp cashier bank credit ∧
    cashier ∈ CASHIERS ∧ bank ∈ BANKS.

(** * Properties *)

(** ** Floats *)

Lemma float_le_refl x : notna x = true → float_le x x = true.
Proof.
  destruct x as [| |q|]; simpl; try done.
  intros _. apply Qle_bool_iff, Qle_refl.
Qed.

Lemma float_le_trans x y z :
  float_le x y = true → float_le y z = true → float_le x z = true.
Proof.
  destruct x as [| |p|], y as [| |q|], z as [| |r|]; simpl; try done.
  rewrite !Qle_bool_iff. apply Qle_trans.
Qed.

Lemma float_le_total x y :
  notna x = true → notna y = true →
  float_le x y = false → float_le y x = true.
Proof.
  destruct x as [| |p|], y as [| |q|]; simpl; try done.
  intros _ _ Hpq. apply Qle_bool_iff, Qlt_le_weak, Qnot_le_lt.
  rewrite <- Qle_bool_iff. by rewrite Hpq.
Qed.

(** Two finite floats that bound each other denote the same rational. *)
Lemma float_le_antisym p q :
  float_le (Fin p) (Fin q) = true → float_le (Fin q) (Fin p) = true →
  (p == q)%Q.
Proof. simpl. rewrite !Qle_bool_iff. apply Qle_antisym. Qed.

Lemma Qtrunc_inject_Z n : Qtrunc (inject_Z n) = n.
Proof. unfold Qtrunc. simpl. apply Z.quot_1_r. Qed.

(** Truncation does not depend on the fraction chosen for a rational. *)
Lemma Qtrunc_proper p q : (p == q)%Q → Qtrunc p = Qtrunc q.
Proof.
  destruct p as [a b], q as [c d]. unfold Qeq, Qtrunc. simpl. intros Heq.
  rewrite <- (Z.quot_mul_cancel_r a (Zpos b) (Zpos d)) by lia.
  rewrite <- (Z.quot_mul_cancel_r c (Zpos d) (Zpos b)) by lia.
  rewrite Heq. f_equal. lia.
Qed.

(** ** [Series.max] *)

Lemma series_max_nan xs :
  notna (series_max xs) = false → List.filter notna xs = [].
Proof.
  induction xs as [|x xs IH]; [done|]. simpl.
  destruct x as [| |q|]; simpl; [exact IH|..]; intros Hmax; exfalso;
    destruct (series_max xs) as [| |r|]; simpl in Hmax;
    repeat case_match; done.
Qed.

Lemma series_max_maximum xs :
  notna (series_max xs) = true →
  series_max xs ∈ List.filter notna xs ∧
  Forall (λ x, float_le x (series_max xs) = true) (List.filter notna xs).
Proof.
  induction xs as [|x xs IH]; [done|].
  change (series_max (x :: xs)) with (nanmax x (series_max xs)).
  destruct (notna x) eqn:Hx.
  - simpl. rewrite Hx.
    destruct (notna (series_max xs)) eqn:Hm.
    + destruct (IH eq_refl) as [Hin Hall].
      assert (nanmax x (series_max xs) =
              if float_le x (series_max xs) then series_max xs else x) as ->.
      { destruct x, (series_max xs); done. }
      destruct (float_le x (series_max xs)) eqn:Hle.
      * intros _. split; [by right|]. by constructor.
      * intros _. split; [by left|].
        constructor; [by apply float_le_refl|].
        eapply Forall_impl; [exact Hall|]. simpl. intros y Hy.
        eapply float_le_trans; [exact Hy|]. by apply float_le_total.
    + assert (nanmax x (series_max xs) = x) as ->.
      { destruct x, (series_max xs); done. }
      rewrite (series_max_nan xs Hm). intros _.
      split; [by left|]. constructor; [by apply float_le_refl|constructor].
  - destruct x; done.
Qed.

(** ** [get_next_id] *)

Section NextIdProperties.
Context `{PyLib}.

Lemma numeric_ids_no_column df :
  df_empty df || negb (has_column "ID" df) = true → numeric_ids df = [].
Proof.
  unfold numeric_ids, get_column, df_empty, has_column.
  destruct (columns df) as [|c cs]; [by destruct (rows df)|].
  destruct (index_of "ID" (c :: cs)) as [i|]; [|done].
  by destruct (rows df).
Qed.

Lemma is_maximum_nil m : ¬ is_maximum m [].
Proof. intros [Hin _]. by apply elem_of_nil in Hin. Qed.

Lemma get_next_id_no_numeric df :
  numeric_ids df = [] → get_next_id df = Ok 1.
Proof.
  intros Hnone. unfold get_next_id.
  destruct (df_empty df || negb (has_column "ID" df)); [done|]. simpl.
  destruct (notna (series_max _)) eqn:Hmax; [|done].
  apply series_max_maximum in Hmax as [Hin _].
  fold (numeric_ids df) in Hin. rewrite Hnone in Hin.
  by apply elem_of_nil in Hin.
Qed.

Lemma get_next_id_finite_max df q :
  is_maximum (Fin q) (numeric_ids df) →
  get_next_id df = Ok (Qtrunc q + 1).
Proof.
  intros [Hq Hbelow]. unfold get_next_id.
  destruct (df_empty df || negb (has_column "ID" df)) eqn:Hguard.
  { rewrite (numeric_ids_no_column df Hguard) in Hq.
    by apply elem_of_nil in Hq. }
  simpl. destruct (notna (series_max _)) eqn:Hmax.
  - apply series_max_maximum in Hmax as [Hin Hall].
    fold (numeric_ids df) in Hin, Hall.
    rewrite Forall_forall in Hbelow, Hall.
    specialize (Hbelow _ Hin). specialize (Hall _ Hq).
    destruct (series_max _) as [| |p|]; try done. simpl.
    by rewrite (Qtrunc_proper p q (float_le_antisym p q Hbelow Hall)).
  - apply series_max_nan in Hmax. fold (numeric_ids df) in Hmax.
    rewrite Hmax in Hq. by apply elem_of_nil in Hq.
Qed.

(** An unbounded id makes the conversion to an integer fail. *)
Lemma get_next_id_infinite_max df m :
  is_maximum m (numeric_ids df) → m = PosInf ∨ m = NegInf →
  get_next_id df =
    Raise (OverflowError "cannot convert float infinity to integer").
Proof.
  intros [Hm Hbelow] Hinf. unfold get_next_id.
  destruct (df_empty df || negb (has_column "ID" df)) eqn:Hguard.
  { rewrite (numeric_ids_no_column df Hguard) in Hm.
    by apply elem_of_nil in Hm. }
  simpl. destruct (notna (series_max _)) eqn:Hmax.
  - apply series_max_maximum in Hmax as [Hin Hall].
    fold (numeric_ids df) in Hin, Hall.
    rewrite Forall_forall in Hall, Hbelow.
    specialize (Hall _ Hm). specialize (Hbelow _ Hin).
    by destruct Hinf as [-> | ->]; destruct (series_max _) as [| |p|].
  - apply series_max_nan in Hmax. fold (numeric_ids df) in Hmax.
    rewrite Hmax in Hm. by apply elem_of_nil in Hm.
Qed.

(** C1, as the code has it.  For every snapshot: when no id reads as a
    number (the snapshot is empty, has no id column, or holds only
    ids that are not numbers) the next id is 1; when the largest
    numeric id is finite, the next id is that maximum truncated toward
    zero, plus 1, which is the maximum plus 1 whenever the maximum is
    an integer.  Ids that are not numbers play no part in either
    case. *)
Theorem get_next_id_spec df :
  (numeric_ids df = [] → get_next_id df = Ok 1) ∧
  (∀ q, is_maximum (Fin q) (numeric_ids df) →
        get_next_id df = Ok (Qtrunc q + 1)) ∧
  (∀ n, is_maximum (Fin (inject_Z n)) (numeric_ids df) →
        get_next_id df = Ok (n + 1)).
Proof.
  split; [apply get_next_id_no_numeric|].
  split; [apply get_next_id_finite_max|].
  intros n Hmax. rewrite <- (Qtrunc_inject_Z n).
  by apply get_next_id_finite_max.
Qed.
End NextIdProperties.

(** The ledger of the scenario (ids 1 and 3) gets 4 as its next id. *)
Example next_id_of_sample :
  get_next_id (load_data_from_gsheet online sample_sheet).1 = Ok 4.
Proof. reflexivity. Qed.

Lemma get_next_id_spec_witness :
  get_next_id stray_snapshot = Ok 1 ∧
  get_next_id fractional_snapshot = Ok (Qtrunc 3.5 + 1) ∧
  get_next_id (load_data_from_gsheet online sample_sheet).1 = Ok (3 + 1).
Proof.
  split; [|split].
  - apply (proj1 (get_next_id_spec stray_snapshot)). reflexivity.
  - apply (proj1 (proj2 (get_next_id_spec fractional_snapshot))).
    split; [|repeat constructor]. right; left.
  - apply (proj2 (proj2 (get_next_id_spec _))).
    split; [|repeat constructor]. right; left.
Defined.

(** A snapshot with the ids 1 and 3.5 gets 4 as its next id, which is
    neither 3.5 + 1 nor, were 3.5 set aside as malformed, 1 + 1. *)
Lemma next_id_fractional_max :
  ¬ next_id_is_max_plus_one fractional_snapshot.
Proof.
  intros Hclaim. destruct (Hclaim 3.5%Q) as (n & Hn & Heq).
  - split; [|repeat constructor]. right; left.
  - change (get_next_id fractional_snapshot) with (Ok 4) in Hn.
    injection Hn as <-. discriminate Heq.
Qed.

(** ** The worksheet *)

Section WorksheetProperties.
Context `{PyLib}.

Lemma find_from_first query col n above r below :
  Forall (λ r', cell_text col r' ≠ query) above →
  cell_text col r = query →
  find_from query col n (above ++ r :: below) = Some (n + length above)%nat.
Proof.
  intros Habove Hr. revert n.
  induction Habove as [|r' above Hr' _ IH]; intros n; simpl.
  - rewrite (proj2 (String.eqb_eq _ _) Hr). f_equal. lia.
  - rewrite (proj2 (String.eqb_neq _ _) Hr'), IH. f_equal. lia.
Qed.

Lemma find_from_none query col n grid :
  Forall (λ r, cell_text col r ≠ query) grid →
  find_from query col n grid = None.
Proof.
  intros Hgrid. revert n.
  induction Hgrid as [|r grid Hr _ IH]; intros n; simpl; [done|].
  by rewrite (proj2 (String.eqb_neq _ _) Hr).
Qed.

Lemma find_from_Some_inv query col n grid k :
  find_from query col n grid = Some k →
  ∃ above r below,
    grid = above ++ r :: below ∧ k = (n + length above)%nat ∧
    cell_text col r = query ∧
    Forall (λ r', cell_text col r' ≠ query) above.
Proof.
  revert n. induction grid as [|r grid IH]; intros n; simpl; [done|].
  destruct (String.eqb_spec (cell_text col r) query) as [Heq|Hne].
  - intros [= <-]. exists [], r, grid. simpl.
    repeat split; [lia|done|constructor].
  - intros Hfind. destruct (IH _ Hfind) as (above & r' & below & -> & -> & ? & ?).
    exists (r :: above), r', below. simpl.
    repeat split; [lia|done|by constructor].
Qed.

Lemma find_from_None_inv query col n grid :
  find_from query col n grid = None →
  Forall (λ r, cell_text col r ≠ query) grid.
Proof.
  revert n. induction grid as [|r grid IH]; intros n; simpl; [constructor|].
  destruct (String.eqb_spec (cell_text col r) query) as [Heq|Hne]; [done|].
  intros Hfind. constructor; [done|]. by eapply IH.
Qed.

(** A call that answers [True] took out the first row showing the id,
    and nothing else. *)
Lemma remove_entry_true_inv net ws entry_id m ws' :
  remove_entry_from_gsheet net ws entry_id = (true, m, ws') →
  ∃ above r below,
    ws = above ++ r :: below ∧ ws' = above ++ below ∧
    id_matches entry_id r ∧
    Forall (λ r', ¬ id_matches entry_id r') above.
Proof.
  unfold remove_entry_from_gsheet, ws_find, delete_rows, api_call.
  destruct (find_fault net); [done|].
  destruct (find_from _ _ _ _) as [k|] eqn:Hfind; [|done].
  destruct (delete_rows_fault net); [done|]. intros [= <- <-].
  apply find_from_Some_inv in Hfind
    as (above & r & below & -> & -> & Hr & Habove).
  exists above, r, below. repeat split; [|done..].
  replace (1 + length above - 1)%nat with (length above) by lia.
  apply delete_middle.
Qed.

(** A call that answers [False] left the grid as it was. *)
Lemma remove_entry_false_unchanged net ws entry_id m ws' :
  remove_entry_from_gsheet net ws entry_id = (false, m, ws') → ws' = ws.
Proof.
  unfold remove_entry_from_gsheet, ws_find, delete_rows, api_call.
  repeat case_match; congruence.
Qed.

Lemma remove_entry_not_found net ws entry_id :
  find_fault net = None →
  Forall (λ r, ¬ id_matches entry_id r) ws →
  remove_entry_from_gsheet net ws entry_id =
    (false, CouldNotFind entry_id, ws).
Proof.
  intros Hfind Hnone.
  unfold remove_entry_from_gsheet, ws_find, api_call.
  by rewrite Hfind, (find_from_none _ _ _ _ Hnone).
Qed.

(** C3.  With the spreadsheet service answering: when some row shows
    the id in its first column, the call answers [True] and the grid
    loses exactly the first such row; when no row does, it answers
    [False] and the grid is unchanged. *)
Theorem remove_entry_from_gsheet_spec net ws entry_id :
  find_fault net = None → delete_rows_fault net = None →
  (∀ above r below,
     ws = above ++ r :: below →
     Forall (λ r', ¬ id_matches entry_id r') above →
     id_matches entry_id r →
     remove_entry_from_gsheet net ws entry_id =
       (true, Deleted entry_id, above ++ below) ∧
     length (above ++ below) = (length ws - 1)%nat) ∧
  (Forall (λ r, ¬ id_matches entry_id r) ws →
   remove_entry_from_gsheet net ws entry_id =
     (false, CouldNotFind entry_id, ws)).
Proof.
  intros Hfind Hdelete.
  unfold remove_entry_from_gsheet, ws_find, delete_rows, api_call.
  rewrite Hfind, Hdelete. split.
  - intros above r below -> Habove Hr.
    rewrite (find_from_first _ _ _ _ _ _ Habove Hr).
    replace (1 + length above - 1)%nat with (length above) by lia.
    rewrite delete_middle. split; [done|].
    rewrite !length_app. simpl. lia.
  - intros Hnone. by rewrite (find_from_none _ _ _ _ Hnone).
Qed.

(** C4, as the code has it.  In a grid where at most one row shows the
    id, once a deletion of that id went through, a second one (its
    lookup being answered) reports that the id could not be found and
    leaves the grid unchanged. *)
Theorem second_delete_not_found net net' ws entry_id m ws1 :
  at_most_one_match entry_id ws →
  remove_entry_from_gsheet net ws entry_id = (true, m, ws1) →
  find_fault net' = None →
  remove_entry_from_gsheet net' ws1 entry_id =
    (false, CouldNotFind entry_id, ws1).
Proof.
  intros Hunique Hfirst Hfind.
  apply remove_entry_true_inv in Hfirst
    as (above & r & below & -> & -> & Hr & Habove).
  apply remove_entry_not_found; [done|].
  apply Forall_app. split; [done|].
  apply Forall_forall. intros r' Hin Hr'.
  apply list_elem_of_lookup in Hin as [j Hj].
  assert (length above = length above + S j)%nat; [|lia].
  apply (Hunique _ _ r r'); [| |done..].
  - by rewrite list_lookup_middle.
  - rewrite lookup_app_r by lia.
    by replace (length above + S j - length above)%nat with (S j) by lia.
Qed.
End WorksheetProperties.

Lemma remove_entry_from_gsheet_spec_witness :
  remove_entry_from_gsheet online sample_sheet (VStr "3") =
    (true, Deleted (VStr "3"),
     [header_row;
      entry_row (VInt 1) "2024-05-02 09:15:00" "Emush" "Abay" (Fin 100)]) ∧
  remove_entry_from_gsheet online sample_sheet (VInt 7) =
    (false, CouldNotFind (VInt 7), sample_sheet).
Proof.
  destruct (remove_entry_from_gsheet_spec online sample_sheet (VStr "3")
              eq_refl eq_refl) as [Hfound _].
  destruct (remove_entry_from_gsheet_spec online sample_sheet (VInt 7)
              eq_refl eq_refl) as [_ Habsent].
  split.
  - apply (Hfound
             [header_row;
              entry_row (VInt 1) "2024-05-02 09:15:00" "Emush" "Abay"
                        (Fin 100)]
             (entry_row (VInt 3) "2024-05-02 09:40:10" "Tigist" "Nib"
                        (Fin 50))
             []); [reflexivity| |reflexivity].
    repeat constructor; discriminate.
  - apply Habsent. repeat constructor; discriminate.
Defined.

Lemma second_delete_not_found_witness :
  remove_entry_from_gsheet online
    [header_row;
     entry_row (VInt 1) "2024-05-02 09:15:00" "Emush" "Abay" (Fin 100)]
    (VStr "3") =
  (false, CouldNotFind (VStr "3"),
   [header_row;
    entry_row (VInt 1) "2024-05-02 09:15:00" "Emush" "Abay" (Fin 100)]).
Proof.
  apply (second_delete_not_found online online sample_sheet (VStr "3")
           (Deleted (VStr "3"))); [|reflexivity..].
  intros i j r r' Hi Hj Hr Hr'.
  destruct i as [|[|[|i]]], j as [|[|[|j]]]; simplify_eq/=; done.
Defined.

(** With the id 3 on two rows, the second deletion goes through as
    well and takes the other row out. *)
Lemma second_delete_of_duplicate :
  ¬ second_delete_finds_nothing duplicated_sheet (VStr "3").
Proof.
  intros Hclaim.
  specialize (Hclaim (Deleted (VStr "3"))
                [header_row;
                 entry_row (VInt 3) "2024-05-02 09:40:11" "Adanu" "CBE"
                           (Fin 75)]
                eq_refl).
  discriminate Hclaim.
Qed.

(** ** [load_data_from_gsheet] *)

Section LoadProperties.
Context `{PyLib}.

Lemma index_of_lt name cols i :
  index_of name cols = Some i → (i < length cols)%nat.
Proof.
  revert i. induction cols as [|c cols IH]; intros i; simpl; [done|].
  destruct (String.eqb c name); [intros [= <-]; lia|].
  destruct (index_of name cols) as [j|]; [|done].
  intros [= <-]. specialize (IH j eq_refl). lia.
Qed.

Lemma pd_DataFrame_of_grid (labels : list string) (data : list (list value)) :
  data ≠ [] → Forall (λ r, length r = length labels) data →
  pd_DataFrame (zip labels <$> data) = {| columns := labels; rows := data |}.
Proof.
  intros Hdata Hwide. unfold pd_DataFrame. f_equal.
  - destruct data as [|r data]; [done|]. simpl.
    apply fst_zip. apply Forall_cons in Hwide as [-> _]. done.
  - rewrite <- list_fmap_compose. rewrite <- (list_fmap_id data) at 2.
    apply Forall_fmap_ext. eapply Forall_impl; [exact Hwide|].
    intros r Hr. simpl. apply snd_zip. by rewrite Hr.
Qed.

Lemma width_cons r grid :
  width (r :: grid) = (length r `max` width grid)%nat.
Proof. reflexivity. Qed.

Lemma width_positive header data : header ≠ [] → width (header :: data) ≠ 0%nat.
Proof. rewrite width_cons. destruct header; [done|]. simpl. lia. Qed.

(** A successful read of a grid with data rows, before the id column
    is converted. *)
Lemma get_all_records_frame net header data records :
  get_all_records net (header :: data) = Ok records →
  data ≠ [] →
  pd_DataFrame records =
    {| columns := str <$> resize (width (header :: data)) (VStr "") header;
       rows := resize (width (header :: data)) (VStr "") <$> data |}.
Proof.
  unfold get_all_records, api_call.
  destruct (get_all_records_fault net); [done|]. intros [= <-] Hdata.
  change (fill_gaps (header :: data)) with
    (resize (width (header :: data)) (VStr "") header ::
       (resize (width (header :: data)) (VStr "") <$> data)).
  cbv beta iota. apply pd_DataFrame_of_grid.
  - by destruct data.
  - apply Forall_fmap, Forall_true. intros r. simpl.
    by rewrite length_fmap, !length_resize.
Qed.

Lemma get_all_records_rectangular net ws records :
  get_all_records net ws = Ok records → rectangular (pd_DataFrame records).
Proof.
  destruct ws as [|header [|r data]].
  1, 2: unfold get_all_records, api_call;
    destruct (get_all_records_fault net); [done|];
    intros [= <-]; constructor.
  intros Hrecords.
  rewrite (get_all_records_frame _ _ _ _ Hrecords) by done.
  unfold rectangular. cbn [columns rows].
  apply Forall_fmap, Forall_true. intros r'. simpl.
  by rewrite length_fmap, !length_resize.
Qed.

Lemma astype_str_rectangular name df :
  rectangular df → rectangular (astype_str name df).
Proof.
  unfold rectangular, astype_str. intros Hrect.
  destruct (index_of name (columns df)) as [i|]; [|done]. simpl.
  apply Forall_fmap. eapply Forall_impl; [exact Hrect|]. simpl.
  intros r Hr. by rewrite length_insert.
Qed.

Lemma load_rectangular net ws :
  rectangular (load_data_from_gsheet net ws).1.
Proof.
  unfold load_data_from_gsheet.
  destruct (get_all_records net ws) as [records|e] eqn:Hrecords;
    [|constructor].
  destruct (df_empty (pd_DataFrame records)); [constructor|].
  apply get_all_records_rectangular in Hrecords.
  destruct (has_column "ID" (pd_DataFrame records)); [|done].
  by apply astype_str_rectangular.
Qed.

Lemma astype_str_column name df v :
  rectangular df →
  v ∈ get_column name (astype_str name df) → ∃ s, v = VStr s.
Proof.
  unfold rectangular, get_column, astype_str. intros Hrect.
  destruct (index_of name (columns df)) as [i|] eqn:Hi; simpl;
    rewrite Hi; [|by intros ?%elem_of_nil].
  rewrite <- list_fmap_compose.
  intros (r & -> & Hr)%list_elem_of_fmap_1.
  rewrite Forall_forall in Hrect. specialize (Hrect r Hr).
  apply index_of_lt in Hi. simpl. unfold cell at 1.
  rewrite list_lookup_insert_eq by lia. by eexists.
Qed.

(** Every id of a loaded snapshot is a string. *)
Lemma loaded_ids_are_strings net ws v :
  v ∈ get_column "ID" (load_data_from_gsheet net ws).1 → ∃ s, v = VStr s.
Proof.
  unfold load_data_from_gsheet.
  destruct (get_all_records net ws) as [records|e] eqn:Hrecords;
    [|by intros ?%elem_of_nil].
  destruct (df_empty (pd_DataFrame records)); [by intros ?%elem_of_nil|].
  apply get_all_records_rectangular in Hrecords.
  destruct (has_column "ID" (pd_DataFrame records)) eqn:Hcol; simpl.
  - by apply astype_str_column.
  - unfold get_column, has_column in *.
    destruct (index_of "ID" (columns (pd_DataFrame records))); [done|].
    by intros ?%elem_of_nil.
Qed.

(** C8.  Whatever the error a fetch fails with, the load returns
    normally: its result is the frame with the five standard columns
    and no row, and one error box telling of the failure is shown. *)
Theorem load_failure_is_empty_result net ws msg :
  get_all_records_fault net = Some msg →
  load_data_from_gsheet net ws =
    (empty_frame HEADERS, [st_error (FailedToLoad (APIError msg))]) ∧
  df_empty (load_data_from_gsheet net ws).1 = true ∧
  columns (load_data_from_gsheet net ws).1 = HEADERS ∧
  rows (load_data_from_gsheet net ws).1 = [].
Proof.
  intros Hfault. unfold load_data_from_gsheet, get_all_records, api_call.
  by rewrite Hfault.
Qed.
End LoadProperties.

Lemma load_failure_is_empty_result_witness :
  load_data_from_gsheet (offline "503 Service Unavailable") sample_sheet =
    (empty_frame HEADERS,
     [st_error (FailedToLoad (APIError "503 Service Unavailable"))]).
Proof.
  apply (load_failure_is_empty_result
           (offline "503 Service Unavailable") sample_sheet
           "503 Service Unavailable").
  reflexivity.
Defined.

(** ** [save_entry] *)

Section SaveProperties.
Context `{PyLib}.

(** The ledger is at least as wide as its label row, and no wider when
    no row is. *)
Lemma width_ledger_ge data : (5 ≤ width (header_row :: data))%nat.
Proof. rewrite width_cons. simpl. lia. Qed.

Lemma width_le grid n :
  Forall (λ r, (length r ≤ n)%nat) grid → (width grid ≤ n)%nat.
Proof.
  induction 1 as [|r grid Hr _ IH]; [cbv; lia|].
  rewrite width_cons. simpl in Hr. lia.
Qed.

Lemma width_ledger data :
  Forall (λ r, (length r ≤ 5)%nat) data → width (header_row :: data) = 5%nat.
Proof.
  intros Hdata. apply Nat.le_antisymm; [|apply width_ledger_ge].
  apply width_le. by constructor.
Qed.

(** A successful read of the ledger: its data rows, each brought to
    the width of the sheet with the id as text, under the five labels
    and one blank label for every column some row has beyond them. *)
Lemma load_ledger net data :
  get_all_records_fault net = None →
  load_data_from_gsheet net (header_row :: data) =
    ({| columns := HEADERS ++ replicate (width (header_row :: data) - 5) "";
        rows := loaded_row (width (header_row :: data)) <$> data |}, []).
Proof.
  intros Hfetch. unfold load_data_from_gsheet.
  destruct (get_all_records net (header_row :: data))
    as [records|e] eqn:Hrecords;
    [|by unfold get_all_records, api_call in Hrecords;
         rewrite Hfetch in Hrecords].
  destruct data as [|r data].
  { unfold get_all_records, api_call in Hrecords.
    rewrite Hfetch in Hrecords. by injection Hrecords as <-. }
  rewrite (get_all_records_frame _ _ _ _ Hrecords) by done.
  pose proof (width_ledger_ge (r :: data)) as Hwide.
  set (w := width (header_row :: r :: data)) in *.
  rewrite (resize_ge header_row w) by done.
  rewrite fmap_app, fmap_replicate.
  change (length header_row) with 5%nat.
  change (str <$> header_row) with HEADERS.
  change (str (VStr "")) with "".
  unfold df_empty, has_column, astype_str. cbn [columns rows].
  change (HEADERS ++ replicate (w - 5) "") with
    ("ID" :: tail HEADERS ++ replicate (w - 5) "").
  cbn [fmap list_fmap index_of String.eqb Ascii.eqb Bool.eqb].
  by rewrite <- list_fmap_compose.
Qed.

(** The same on a ledger none of whose rows is wider than the label
    row. *)
Lemma load_ledger_narrow net data :
  Forall (λ r, (length r ≤ 5)%nat) data →
  get_all_records_fault net = None →
  load_data_from_gsheet net (header_row :: data) =
    ({| columns := HEADERS; rows := loaded_row 5 <$> data |}, []).
Proof.
  intros Hdata Hfetch. rewrite load_ledger by done.
  by rewrite width_ledger.
Qed.

(** The row [save_entry] hands to [append_row]. *)
Lemma data_row_of_entry_data entry_id now bank amount cashier :
  (λ h, default (VStr "")
          (<["ID" := VInt entry_id]> (entry_data now bank amount cashier)
             !! h)) <$> HEADERS =
  entry_row (VInt entry_id) now cashier bank amount.
Proof. reflexivity. Qed.


Lemma same_cell_refl v : same_cell v v.
Proof. by left. Qed.

Lemma same_entry_refl r : same_entry r r.
Proof.
  split; [done|]. apply Forall2_same_length_lookup. split; [done|].
  intros k v v' Hv Hv'. assert (v = v') as <- by congruence.
  apply same_cell_refl.
Qed.




(** C9.  Whenever the next id can be computed, the dictionary the
    caller passed in holds that id under "ID" when [save_entry]
    returns, be the row appended or not, and is otherwise as it was;
    the row handed to the sheet is read off the dictionary after the
    id is in it. *)
Theorem save_entry_sets_id net ws df entry entry_id :
  get_next_id df = Ok entry_id →
  entry_after_save (save_entry net ws df entry) =
    <["ID" := VInt entry_id]> entry ∧
  entry_after_save (save_entry net ws df entry) !! "ID" =
    Some (VInt entry_id) ∧
  (∀ key, key ≠ "ID" →
          entry_after_save (save_entry net ws df entry) !! key =
            entry !! key) ∧
  (sheet_after_save (save_entry net ws df entry) = ws ∨
   sheet_after_save (save_entry net ws df entry) =
     ws ++ [(λ h, default (VStr "")
                    (entry_after_save (save_entry net ws df entry) !! h))
              <$> HEADERS]).
Proof.
  intros Hid.
  assert (entry_after_save (save_entry net ws df entry) =
          <["ID" := VInt entry_id]> entry) as Hentry.
  { unfold save_entry. rewrite Hid. by repeat case_match. }
  rewrite Hentry. split; [done|].
  split; [apply lookup_insert_eq|].
  split; [by intros key Hkey; rewrite lookup_insert_ne|].
  unfold save_entry, append_row, api_call. rewrite Hid.
  destruct (append_row_fault net); [by left|].
  right. by case_match.
Qed.

(** When the next id cannot be computed, nothing is written and the
    dictionary stays as it was. *)
Lemma save_entry_without_id net ws df entry e :
  get_next_id df = Raise e →
  save_entry net ws df entry =
    {| saved := false; sheet_after_save := ws; entry_after_save := entry;
       shown_by_save := [st_error (FailedToSave e)] |}.
Proof. intros Hid. unfold save_entry. by rewrite Hid. Qed.
End SaveProperties.



(** A row wider than the label row shows in every entry listed, the
    appended one too: each has a sixth cell, under a blank label. *)
Example append_to_ragged_sheet :
  let out := save_entry online ragged_sheet
               (load_data_from_gsheet online ragged_sheet).1 sample_entry in
  saved out = true ∧
  columns (load_data_from_gsheet online (sheet_after_save out)).1 =
    HEADERS ++ [""] ∧
  last (rows (load_data_from_gsheet online (sheet_after_save out)).1) =
    Some (entry_row (VStr "3") "2024-05-03 08:00:00" "Misrak" "Abay"
                    (Fin 250.5) ++ [VStr ""]).
Proof. vm_compute. done. Qed.

(** What the blank sheet goes through: the first deposit is written to
    row 1 under the id 1 and listed by no read; the second one gets the
    id 1 again, and the log then fails for want of an "ID" label. *)
Example first_entries_of_blank_sheet :
  let first := save_entry online blank_sheet
                 (load_data_from_gsheet online blank_sheet).1 sample_entry in
  let second := save_entry online (sheet_after_save first)
                  (load_data_from_gsheet online (sheet_after_save first)).1
                  sample_entry in
  saved first = true ∧
  load_data_from_gsheet online (sheet_after_save first) =
    (empty_frame HEADERS, []) ∧
  entry_after_save second !! "ID" = Some (VInt 1) ∧
  entries_log online (sheet_after_save second) "" =
    (Raise (KeyError "ID"), []).
Proof. vm_compute. done. Qed.

(** The scenario: appending the deposit to the ledger with ids 1 and 3
    gives it the id 4, and the ledger then lists 1, 3 and 4. *)
Example scenario_append :
  let out := save_entry online sample_sheet
               (load_data_from_gsheet online sample_sheet).1 sample_entry in
  saved out = true ∧
  entry_after_save out !! "ID" = Some (VInt 4) ∧
  get_column "ID" (load_data_from_gsheet online (sheet_after_save out)).1 =
    [VStr "1"; VStr "3"; VStr "4"].
Proof. vm_compute. done. Qed.

(** The scenario, continued: deleting id 3 leaves the entries 1 and 4. *)
Example scenario_delete :
  let out := save_entry online sample_sheet
               (load_data_from_gsheet online sample_sheet).1 sample_entry in
  let '(ok, _, ws) :=
    remove_entry_from_gsheet online (sheet_after_save out) (VStr "3") in
  ok = true ∧
  get_column "ID" (load_data_from_gsheet online ws).1 = [VStr "1"; VStr "4"].
Proof. vm_compute. done. Qed.

Lemma save_entry_sets_id_witness :
  entry_after_save
    (save_entry (offline "quota exceeded") sample_sheet
       (load_data_from_gsheet online sample_sheet).1 sample_entry) !! "ID" =
  Some (VInt 4).
Proof.
  apply (save_entry_sets_id (offline "quota exceeded") sample_sheet
           (load_data_from_gsheet online sample_sheet).1 sample_entry 4).
  reflexivity.
Defined.

(** ** The search box *)

Lemma append_nil s : "" +:+ s = s.
Proof. reflexivity. Qed.

Lemma append_cons c s t : String c s +:+ t = String c (s +:+ t).
Proof. reflexivity. Qed.

Lemma prefix_spec needle hay :
  String.prefix needle hay = true ↔ ∃ after, hay = needle +:+ after.
Proof.
  revert hay. induction needle as [|a needle IH]; intros [|b hay]; simpl.
  - split; [intros _; by exists ""|done].
  - split; [intros _; by exists (String b hay)|done].
  - split; [done|]. by intros [? ?].
  - destruct (ascii_dec a b) as [<-|Hne].
    + rewrite IH. split; intros [after Hafter]; exists after;
        rewrite append_cons in *; congruence.
    + split; [done|]. intros [after Hafter].
      rewrite append_cons in Hafter. congruence.
Qed.

Lemma contains_unfold needle hay :
  contains needle hay =
    String.prefix needle hay ||
    match hay with
    | EmptyString => false
    | String _ hay' => contains needle hay'
    end.
Proof. by destruct hay. Qed.

Lemma contains_spec `{PyLib} needle hay :
  contains needle hay = true ↔ Substring needle hay.
Proof.
  unfold Substring. split.
  - induction hay as [|c hay IH];
      rewrite contains_unfold, orb_true_iff, prefix_spec.
    + intros [[after ->]|?]; [|done]. by exists "", after.
    + intros [[after ->]|Hin]; [by exists "", after|].
      destruct (IH Hin) as (before & after & ->).
      by exists (String c before), after.
  - intros (before & after & ->).
    induction before as [|c before IH]; rewrite contains_unfold.
    + rewrite append_nil. apply orb_true_iff. left.
      apply prefix_spec. by exists after.
    + rewrite append_cons, IH. apply orb_true_r.
Qed.

Section SearchProperties.
Context `{PyLib}.


Lemma elem_of_list_filter {A} (f : A → bool) (l : list A) x :
  x ∈ List.filter f l ↔ x ∈ l ∧ f x = true.
Proof. rewrite !list_elem_of_In. apply filter_In. Qed.

Lemma search_entries_elem search_query df r :
  r ∈ rows (search_entries search_query df) ↔
  r ∈ rows df ∧
  (search_query = "" ∨
   Substring (str_lower search_query) (str_lower (row_text r))).
Proof.
  destruct search_query as [|c q].
  - simpl. split; [by split; [|left]|tauto].
  - cbn [search_entries rows]. rewrite elem_of_list_filter, contains_spec.
    split; [intros [? ?]; by split; [|right]|].
    by intros [? [?|?]].
Qed.

Lemma search_entries_columns search_query df :
  columns (search_entries search_query df) = columns df.
Proof. by destruct search_query. Qed.

End SearchProperties.

(** Search of the sample ledger, whatever the case of the letters. *)
Example search_for_bank :
  get_column "ID"
    (search_entries "NiB" (load_data_from_gsheet online sample_sheet).1) =
    [VStr "3"] ∧
  get_column "ID"
    (search_entries "tigist nib"
       (load_data_from_gsheet online sample_sheet).1) = [VStr "3"] ∧
  search_entries "" (load_data_from_gsheet online sample_sheet).1 =
    (load_data_from_gsheet online sample_sheet).1.
Proof. repeat split. Qed.


(** ** The entries log *)

Lemma key_le_total a b : key_le a b = false → key_le b a = true.
Proof.
  destruct a as [m|x|s], b as [n|y|t]; simpl; try done.
  - intros Hmn. apply (float_le_total (Fin _) (Fin _)); done.
  - destruct y as [| |q|]; try done.
    intros Hmq. apply (float_le_total (Fin _) (Fin _)); done.
  - destruct x as [| |p|]; try done.
    intros Hpn. apply (float_le_total (Fin _) (Fin _)); done.
  - destruct x as [| |p|], y as [| |q|]; try done.
    intros Hpq. apply (float_le_total (Fin _) (Fin _)); done.
  - intros Hst. destruct (String.leb_total s t) as [Hle|Hle]; congruence.
Qed.

Section SortProperties.
Context {A : Type} (key : A → value).

Lemma insert_desc_perm x l : insert_desc key x l ≡ₚ x :: l.
Proof.
  induction l as [|y l IH]; simpl; [done|].
  destruct (key_le (key y) (key x)); [done|].
  rewrite IH. apply Permutation_swap.
Qed.

Lemma sort_desc_perm l : sort_desc key l ≡ₚ l.
Proof.
  induction l as [|x l IH]; simpl; [done|].
  by rewrite insert_desc_perm, IH.
Qed.

Lemma insert_desc_sorted x l :
  Sorted (listed_before key) l →
  Sorted (listed_before key) (insert_desc key x l).
Proof.
  induction 1 as [|y l Hsorted IH Hhead]; simpl.
  - by repeat constructor.
  - destruct (key_le (key y) (key x)) eqn:Hyx.
    + constructor; [by constructor|]. by constructor.
    + constructor; [exact IH|].
      destruct Hhead as [|z l Hyz]; simpl.
      * constructor. by apply key_le_total.
      * destruct (key_le (key z) (key x));
          constructor; [by apply key_le_total|done].
Qed.

Lemma sort_desc_sorted l : Sorted (listed_before key) (sort_desc key l).
Proof.
  induction l as [|x l IH]; simpl; [constructor|].
  by apply insert_desc_sorted.
Qed.
End SortProperties.

(** What [sort_values] does: the rows are rearranged so that the keys
    never go up, in the order of the cells themselves; on a loaded
    snapshot the ids are strings and that order is the one of
    [String.leb]. *)
Lemma sort_values_desc_sorted name df df' :
  sort_values_desc name df = Ok df' →
  columns df' = columns df ∧ rows df' ≡ₚ rows df ∧
  ∃ i, index_of name (columns df) = Some i ∧
       Sorted (listed_before (cell i)) (rows df').
Proof.
  unfold sort_values_desc.
  destruct (index_of name (columns df)) as [i|]; [|done].
  case_match; [|done]. intros [= <-]. cbn [columns rows].
  split; [done|]. split; [apply sort_desc_perm|].
  exists i. split; [done|apply sort_desc_sorted].
Qed.

(** C6, at the ledger holding the ids 9 and 10: the log lists 9 first
    and 10 second, since the ids it sorts are the strings "9" and "10";
    the entry with the smaller id comes first. *)
Theorem entries_log_nine_before_ten :
  ∃ df,
    entries_log online nine_ten_sheet "" = (Ok df, []) ∧
    get_column "ID" df = [VStr "9"; VStr "10"] ∧
    ¬ descending_by_id df.
Proof.
  eexists. split; [reflexivity|]. split; [reflexivity|].
  intros Hdesc.
  specialize (Hdesc 0%nat 1%nat _ _ eq_refl eq_refl (le_n _)).
  vm_compute in Hdesc. discriminate Hdesc.
Qed.

(** ** The entry form *)

Section FormProperties.
Context `{PyLib}.

(** C7, as the code has it.  When a bank is selected, an amount is
    entered and the append fails: an error box tells of the failed
    save (of the failed append itself whenever the next id could be
    computed), the sheet is as it was, the selected cashier and bank
    are kept, and the amount widget is back to empty. *)
Theorem write_failure_reported net ws ss bank amount now msg :
  selected_bank ss = Some bank → bank ≠ "" →
  append_row_fault net = Some msg →
  (∃ e,
     shown_by_submit (submit_entry_form net ws ss (Some amount) now) =
       (load_data_from_gsheet net ws).2 ++ [st_error (FailedToSave e)] ∧
     (∀ n, get_next_id (load_data_from_gsheet net ws).1 = Ok n →
           e = APIError msg)) ∧
  sheet_after_submit (submit_entry_form net ws ss (Some amount) now) = ws ∧
  session_after_submit (submit_entry_form net ws ss (Some amount) now) =
    ss ∧
  credit_after_submit (submit_entry_form net ws ss (Some amount) now) =
    None.
Proof.
  intros Hbank Hnonempty Hfault. unfold submit_entry_form. rewrite Hbank.
  destruct bank as [|c bank]; [done|].
  destruct (load_data_from_gsheet net ws) as [df shown].
  unfold save_entry, append_row, api_call. rewrite Hfault. cbn [fst snd].
  destruct (get_next_id df) as [n|e]; simpl.
  - split; [|by repeat split]. exists (APIError msg). by split.
  - split; [|by repeat split]. exists e. by split.
Qed.
End FormProperties.

Lemma write_failure_reported_witness :
  credit_after_submit
    (submit_entry_form (append_down "quota exceeded") sample_sheet
       sample_session (Some (Fin 250.5)) "2024-05-03 08:00:00") = None.
Proof.
  apply (write_failure_reported (append_down "quota exceeded") sample_sheet
           sample_session "Abay" (Fin 250.5) "2024-05-03 08:00:00"
           "quota exceeded"); [reflexivity|discriminate|reflexivity].
Defined.

(** The append fails with 250.5 in the amount widget: the widget is
    empty afterwards. *)
Lemma write_failure_clears_amount :
  ¬ write_failure_keeps_form (append_down "quota exceeded") sample_sheet
      sample_session (Fin 250.5) "2024-05-03 08:00:00".
Proof.
  intros Hclaim.
  destruct (Hclaim "quota exceeded" eq_refl) as (_ & _ & Hcredit).
  discriminate Hcredit.
Qed.

(** ** The delete path compares texts *)

Section DeletePath.
Context `{PyLib}.

(** The ids listed in the entries log are strings. *)
Lemma log_ids_are_strings net ws search_query d shown k r i :
  entries_log net ws search_query = (Ok d, shown) →
  rows d !! k = Some r → index_of "ID" (columns d) = Some i →
  ∃ s, cell i r = VStr s.
Proof.
  unfold entries_log.
  pose proof (loaded_ids_are_strings net ws) as Hstrings.
  destruct (load_data_from_gsheet net ws) as [df shown']. cbn [fst] in *.
  intros [= Hsort _] Hr Hi.
  apply sort_values_desc_sorted in Hsort as (Hcols & Hperm & _).
  rewrite Hcols, search_entries_columns in Hi.
  apply list_elem_of_lookup_2 in Hr. rewrite Hperm in Hr.
  apply search_entries_elem in Hr as [Hr _].
  apply Hstrings. unfold get_column. rewrite Hi.
  by apply list_elem_of_fmap_2.
Qed.

(** C10.  Every id of a snapshot returned by the load is a string, and
    so is the id that "Confirm Deletion" takes from the entries log;
    the deletion looks its argument up through [str], so that it
    answers and acts as on the text of that argument; and the row a
    deletion takes out is one whose first cell shows exactly that
    text. *)
Theorem delete_path_compares_text :
  (∀ net ws v,
     v ∈ get_column "ID" (load_data_from_gsheet net ws).1 →
     ∃ s, v = VStr s) ∧
  (∀ net ws entry_id,
     (remove_entry_from_gsheet net ws entry_id).1.1 =
       (remove_entry_from_gsheet net ws (VStr (str entry_id))).1.1 ∧
     (remove_entry_from_gsheet net ws entry_id).2 =
       (remove_entry_from_gsheet net ws (VStr (str entry_id))).2) ∧
  (∀ net ws entry_id m ws',
     remove_entry_from_gsheet net ws entry_id = (true, m, ws') →
     ∃ above r below,
       ws = above ++ r :: below ∧ ws' = above ++ below ∧
       cell_text 1 r = str entry_id ∧
       Forall (λ r', cell_text 1 r' ≠ str entry_id) above) ∧
  (∀ net ws search_query d shown net' ws' k out,
     entries_log net ws search_query = (Ok d, shown) →
     confirm_deletion net' ws' d k = Some out →
     ∃ s, out = remove_entry_from_gsheet net' ws' (VStr s)).
Proof.
  split; [exact loaded_ids_are_strings|]. split; [|split].
  - intros net ws entry_id.
    unfold remove_entry_from_gsheet, ws_find, delete_rows, api_call.
    simpl str. by repeat case_match.
  - intros net ws entry_id m ws'. apply remove_entry_true_inv.
  - intros net ws q d shown net' ws' k out Hlog. unfold confirm_deletion.
    destruct (rows d !! k) as [r|] eqn:Hr; [|done]. simpl.
    destruct (index_of "ID" (columns d)) as [i|] eqn:Hi; [|done]. simpl.
    intros [= <-].
    destruct (log_ids_are_strings _ _ _ _ _ _ _ _ Hlog Hr Hi) as [s ->].
    by exists s.
Qed.
End DeletePath.

Lemma delete_path_compares_text_witness :
  (∃ s, VStr "3" = VStr s) ∧
  (∃ above r below,
     sample_sheet = above ++ r :: below ∧
     [header_row;
      entry_row (VInt 1) "2024-05-02 09:15:00" "Emush" "Abay" (Fin 100)] =
       above ++ below ∧
     cell_text 1 r = str (VStr "3") ∧
     Forall (λ r', cell_text 1 r' ≠ str (VStr "3")) above) ∧
  (∃ s, remove_entry_from_gsheet online sample_sheet (VStr "3") =
        remove_entry_from_gsheet online sample_sheet (VStr s)).
Proof.
  split; [|split].
  - apply (proj1 delete_path_compares_text online sample_sheet (VStr "3")).
    right; left.
  - apply (proj1 (proj2 (proj2 delete_path_compares_text)) online
             sample_sheet (VStr "3") (Deleted (VStr "3"))).
    reflexivity.
  - apply (proj2 (proj2 (proj2 delete_path_compares_text)) online
             sample_sheet ""
             {| columns := HEADERS;
                rows := [entry_row (VStr "3") "2024-05-02 09:40:10" "Tigist"
                                   "Nib" (Fin 50);
                         entry_row (VStr "1") "2024-05-02 09:15:00" "Emush"
                                   "Abay" (Fin 100)] |}
             [] online sample_sheet 0%nat); reflexivity.
Defined.

(** The id 3 is on the sheet as a number; asking for the deletion of
    "3.0" or "03", which read as the same number, finds nothing. *)
Example delete_by_equal_number_finds_nothing :
  to_numeric (VStr "3.0") = Fin 3.0 ∧ (3.0 == inject_Z 3)%Q ∧
  remove_entry_from_gsheet online sample_sheet (VStr "3.0") =
    (false, CouldNotFind (VStr "3.0"), sample_sheet) ∧
  remove_entry_from_gsheet online sample_sheet (VStr "03") =
    (false, CouldNotFind (VStr "03"), sample_sheet).
Proof. repeat split. Qed.

(** * Further properties of the ledger service *)

(** ** The next id *)

Lemma Qtrunc_above q : (q < inject_Z (Qtrunc q + 1))%Q.
Proof.
  destruct q as [a b]. unfold Qlt, Qtrunc. simpl.
  Z.quot_rem_to_equations. nia.
Qed.

Section NextIdFurther.
Context `{PyLib}.

(** The two ways [get_next_id] goes: no numeric id and the answer 1, or
    a largest numeric id, which it converts and increments. *)
Lemma get_next_id_by_max df :
  (numeric_ids df = [] ∧ get_next_id df = Ok 1) ∨
  (∃ m, is_maximum m (numeric_ids df) ∧ notna m = true ∧
        get_next_id df = (n ← py_int m; Ok (n + 1))).
Proof.
  unfold get_next_id.
  destruct (df_empty df || negb (has_column "ID" df)) eqn:Hguard.
  { left. split; [by apply numeric_ids_no_column|done]. }
  simpl. destruct (notna (series_max _)) eqn:Hmax.
  - right. exists (series_max (to_numeric <$> get_column "ID" df)).
    by split; [apply series_max_maximum|].
  - left. split; [by apply series_max_nan|done].
Qed.

Lemma get_next_id_above df n q :
  get_next_id df = Ok n → Fin q ∈ numeric_ids df → (q < inject_Z n)%Q.
Proof.
  intros Hnext Hq.
  destruct (get_next_id_by_max df) as [[Hnone _]|(m & [Hm Hbelow] & _ & Hid)].
  { rewrite Hnone in Hq. by apply elem_of_nil in Hq. }
  rewrite Hnext in Hid. rewrite Forall_forall in Hbelow.
  specialize (Hbelow _ Hq).
  destruct m as [| |p|]; try done. simpl in Hid. injection Hid as ->.
  simpl in Hbelow. apply Qle_bool_iff in Hbelow.
  eapply Qle_lt_trans; [exact Hbelow|apply Qtrunc_above].
Qed.

(** The id handed out lies strictly above every numeric id of the
    snapshot, whole or fractional. *)
Theorem next_id_above_numeric_ids df n :
  get_next_id df = Ok n →
  (∀ q, Fin q ∈ numeric_ids df → (q < inject_Z n)%Q) ∧
  PosInf ∉ numeric_ids df.
Proof.
  intros Hnext. split; [intros q; by apply get_next_id_above|].
  intros Hinf.
  destruct (get_next_id_by_max df) as [[Hnone _]|(m & [Hm Hbelow] & _ & Hid)].
  { rewrite Hnone in Hinf. by apply elem_of_nil in Hinf. }
  rewrite Hnext in Hid. rewrite Forall_forall in Hbelow.
  specialize (Hbelow _ Hinf). by destruct m.
Qed.

(** [get_next_id] raises in one case only: the largest numeric id is
    infinite, and the exception is the [OverflowError] of [int]. *)
Theorem get_next_id_raises_iff df e :
  get_next_id df = Raise e ↔
  e = OverflowError "cannot convert float infinity to integer" ∧
  ∃ m, is_maximum m (numeric_ids df) ∧ (m = PosInf ∨ m = NegInf).
Proof.
  split.
  - intros Hraise.
    destruct (get_next_id_by_max df) as [[_ Hone]|(m & Hm & Hna & Hid)];
      [congruence|].
    rewrite Hraise in Hid.
    destruct m as [| |p|]; try done; injection Hid as ->;
      (split; [done|]); eexists; (split; [exact Hm|]); auto.
  - intros [-> (m & Hm & Hinf)]. by eapply get_next_id_infinite_max.
Qed.
End NextIdFurther.

Lemma next_id_above_numeric_ids_witness :
  (∀ q, Fin q ∈ numeric_ids fractional_snapshot → (q < inject_Z 4)%Q) ∧
  PosInf ∉ numeric_ids fractional_snapshot.
Proof.
  apply (next_id_above_numeric_ids fractional_snapshot 4). reflexivity.
Defined.

Lemma get_next_id_raises_iff_witness :
  get_next_id unbounded_snapshot =
    Raise (OverflowError "cannot convert float infinity to integer").
Proof.
  apply (proj2 (get_next_id_raises_iff unbounded_snapshot _)).
  split; [reflexivity|]. exists PosInf.
  split; [|by left]. split; [|repeat constructor]. right; left.
Defined.

(** ** Reading the sheet *)

Lemma lookup_resize_default {A} (l : list A) n x j :
  (j < n)%nat → resize n x l !! j = Some (default x (l !! j)).
Proof.
  intros Hj. destruct (decide (j < length l)%nat) as [Hlt|Hge].
  - rewrite lookup_resize by done.
    by destruct (lookup_lt_is_Some_2 l j Hlt) as [y ->].
  - rewrite lookup_resize_new by lia.
    by rewrite (lookup_ge_None_2 l j) by lia.
Qed.

Lemma index_of_None name cols :
  index_of name cols = None ↔ name ∉ cols.
Proof.
  induction cols as [|c cols IH]; simpl.
  - split; [intros _ ?%elem_of_nil|]; done.
  - rewrite not_elem_of_cons.
    destruct (String.eqb_spec c name) as [->|Hne].
    + split; [done|]. by intros [? _].
    + destruct (index_of name cols); simpl.
      * split; [done|]. intros [_ Hnot]. by apply IH in Hnot.
      * split; [|done]. intros _. split; [done|]. by apply IH.
Qed.

Section LoadFurther.
Context `{PyLib}.

(** What a read that goes through returns, cell by cell, on a sheet
    whose labels (a blank one for a column only data rows reach) are
    distinct and none of whose columns mixes integers and floats: one
    column per label; one row per data row, in sheet order, each filled
    up with empty strings to the width of the sheet; the cells under
    "ID" turned into their text, every other cell as the sheet has it.
    Without data rows, and when the read fails, the result is the empty
    frame of the five standard columns. *)
Theorem load_data_cell_by_cell net ws :
  (get_all_records_fault net ≠ None ∨ tail ws = [] →
   (load_data_from_gsheet net ws).1 = empty_frame HEADERS) ∧
  (∀ header data,
     ws = header :: data → get_all_records_fault net = None →
     header ≠ [] → data ≠ [] →
     NoDup (str <$> resize (width ws) (VStr "") header) →
     dtypes_settled data →
     columns (load_data_from_gsheet net ws).1 =
       str <$> resize (width ws) (VStr "") header ∧
     length (rows (load_data_from_gsheet net ws).1) = length data ∧
     ∀ k r, data !! k = Some r →
       ∃ r', rows (load_data_from_gsheet net ws).1 !! k = Some r' ∧
             length r' = width ws ∧
             ∀ j, (j < width ws)%nat →
               r' !! j =
                 Some (if decide (index_of "ID"
                                    (str <$> resize (width ws) (VStr "")
                                               header) = Some j)
                       then VStr (str (default (VStr "") (r !! j)))
                       else default (VStr "") (r !! j))).
Proof.
  split.
  - unfold load_data_from_gsheet, get_all_records, api_call.
    destruct (get_all_records_fault net); [done|].
    intros [?|Hdata]; [done|].
    by destruct ws as [|header [|r data]].
  - intros header data -> Hfetch Hheader Hdata _ _.
    pose proof (width_positive header data Hheader) as Hwidth.
    set (w := width (header :: data)) in *.
    unfold load_data_from_gsheet.
    destruct (get_all_records net (header :: data)) as [records|e]
      eqn:Hrecords;
      [|by unfold get_all_records, api_call in Hrecords;
           rewrite Hfetch in Hrecords].
    rewrite (get_all_records_frame _ _ _ _ Hrecords) by done. fold w.
    assert (df_empty {| columns := str <$> resize w (VStr "") header;
                        rows := resize w (VStr "") <$> data |}
            = false) as ->.
    { unfold df_empty. cbn [columns rows].
      destruct data; [done|].
      destruct (resize w (VStr "") header) eqn:Hfilled; [|done].
      apply (f_equal length) in Hfilled.
      by rewrite length_resize in Hfilled. }
    unfold has_column, astype_str. cbn [columns rows].
    destruct (index_of "ID" (str <$> resize w (VStr "") header)) as [i|]
      eqn:Hi; cbn [fst columns rows].
    + split; [done|]. split; [by rewrite !length_fmap|].
      intros k r Hr. rewrite !list_lookup_fmap, Hr. simpl.
      eexists. split; [done|].
      split; [by rewrite length_insert, length_resize|].
      intros j Hj. apply index_of_lt in Hi.
      rewrite length_fmap, length_resize in Hi.
      case_decide as Hij.
      * injection Hij as ->.
        rewrite list_lookup_insert_eq by (by rewrite length_resize).
        unfold cell. by rewrite lookup_resize_default.
      * rewrite list_lookup_insert_ne by congruence.
        by apply lookup_resize_default.
    + split; [done|]. split; [by rewrite length_fmap|].
      intros k r Hr. rewrite list_lookup_fmap, Hr. simpl.
      eexists. split; [done|]. split; [by rewrite length_resize|].
      intros j Hj. by apply lookup_resize_default.
Qed.
End LoadFurther.

Lemma load_data_cell_by_cell_witness :
  (load_data_from_gsheet (offline "timeout") ragged_sheet).1 =
    empty_frame HEADERS ∧
  columns (load_data_from_gsheet online ragged_sheet).1 = HEADERS ++ [""] ∧
  rows (load_data_from_gsheet online ragged_sheet).1 =
    [[VStr "1"; VStr "2024-05-02 09:15:00"; VStr ""; VStr ""; VStr "";
      VStr ""];
     entry_row (VStr "2") "2024-05-02 09:40:10" "Tigist" "Nib" (Fin 50)
       ++ [VStr "stray"]].
Proof.
  split.
  - apply (proj1 (load_data_cell_by_cell (offline "timeout") ragged_sheet)).
    by left.
  - destruct (proj2 (load_data_cell_by_cell online ragged_sheet)
                header_row (tail ragged_sheet) eq_refl eq_refl)
      as (Hcolumns & _ & _); [discriminate|discriminate| | |].
    + apply (bool_decide_unpack _). vm_compute. reflexivity.
    + intros j. do 6 (destruct j as [|j]; [reflexivity|]). reflexivity.
    + split; [exact Hcolumns|reflexivity].
Defined.

(** ** Saving *)

Section SaveFurther.
Context `{PyLib}.

(** For the dictionary the form builds, [save_entry] is all or nothing:
    either it answers [True], one row made of the new id and the four
    inputs is appended and the success box names the id; or it answers
    [False], the sheet is as it was and an error box is shown. *)
Theorem save_entry_data_all_or_nothing net ws df now bank amount cashier :
  (saved (save_entry net ws df (entry_data now bank amount cashier)) = true ∧
   ∃ entry_id,
     get_next_id df = Ok entry_id ∧
     sheet_after_save
       (save_entry net ws df (entry_data now bank amount cashier))
       = ws ++ [entry_row (VInt entry_id) now cashier bank amount] ∧
     shown_by_save (save_entry net ws df (entry_data now bank amount cashier))
       = [st_success (Saved entry_id (VStr bank) amount)]) ∨
  (saved (save_entry net ws df (entry_data now bank amount cashier)) = false ∧
   sheet_after_save (save_entry net ws df (entry_data now bank amount cashier))
     = ws ∧
   ∃ e,
     shown_by_save (save_entry net ws df (entry_data now bank amount cashier))
       = [st_error (FailedToSave e)]).
Proof.
  unfold save_entry, append_row, api_call.
  destruct (get_next_id df) as [entry_id|e]; [|right; eauto].
  destruct (append_row_fault net) as [msg|]; [right; eauto|].
  left. rewrite data_row_of_entry_data. split; [done|].
  exists entry_id. done.
Qed.

(** For other dictionaries the answer [False] does not mean that nothing
    was written: without a bank or a credit in the dictionary, or with a
    credit that is a string, the row is appended (an absent field as the
    empty string) before the success message fails, and [False] is
    answered with an error box. *)
Theorem save_entry_fails_after_writing net ws df entry entry_id :
  get_next_id df = Ok entry_id → append_row_fault net = None →
  entry !! "Bank" = None ∨ entry !! "Credit" = None ∨
    (∃ s, entry !! "Credit" = Some (VStr s)) →
  saved (save_entry net ws df entry) = false ∧
  sheet_after_save (save_entry net ws df entry) =
    ws ++ [[VInt entry_id;
            default (VStr "") (entry !! "Timestamp");
            default (VStr "") (entry !! "Cashier");
            default (VStr "") (entry !! "Bank");
            default (VStr "") (entry !! "Credit")]] ∧
  ∃ e, shown_by_save (save_entry net ws df entry) =
         [st_error (FailedToSave e)] ∧
       (e = KeyError "Bank" ∨ e = KeyError "Credit" ∨
        e = ValueError "Unknown format code 'f' for object of type 'str'").
Proof.
  intros Hid Happend Hentry.
  unfold save_entry, append_row, api_call, getitem.
  rewrite Hid, Happend. simpl fmap.
  rewrite lookup_insert_eq, !lookup_insert_ne by done. simpl.
  destruct (entry !! "Bank") as [bank|] eqn:Hbank; simpl;
    [|by repeat split; eauto].
  destruct (entry !! "Credit") as [[n|x|s]|] eqn:Hcredit; simpl;
    try (by repeat split; eauto 6).
  all: by destruct Hentry as [?|[?|[? ?]]].
Qed.
End SaveFurther.

Lemma save_entry_fails_after_writing_witness :
  saved (save_entry online sample_sheet
           (load_data_from_gsheet online sample_sheet).1 bankless_entry) =
    false ∧
  sheet_after_save
    (save_entry online sample_sheet
       (load_data_from_gsheet online sample_sheet).1 bankless_entry) =
    sample_sheet ++
      [[VInt 4; VStr "2024-05-03 08:00:00"; VStr "Misrak"; VStr "";
        VFloat (Fin 250.5)]].
Proof.
  destruct (save_entry_fails_after_writing online sample_sheet
              (load_data_from_gsheet online sample_sheet).1 bankless_entry 4)
    as (Hsaved & Hsheet & _);
    [reflexivity|reflexivity|left; reflexivity|].
  split; [exact Hsaved|exact Hsheet].
Defined.

(** ** Saving on a ledger that was just read *)

Lemma str_of_int_not_label n : str_of_int n ≠ "ID".
Proof.
  unfold str_of_int. destruct n as [|p|p]; simpl; [done| |done].
  by destruct (Pos.to_uint p).
Qed.

Section FreshIds.
Context `{PyLib}.

Lemma loaded_row_id w r :
  (0 < w)%nat → cell 0 (loaded_row w r) = VStr (cell_text 1 r).
Proof.
  intros Hw. unfold loaded_row, cell_text, cell.
  rewrite list_lookup_insert_eq by (rewrite length_resize; lia). simpl.
  by rewrite lookup_resize_default by lia.
Qed.

Lemma ledger_row_id data r :
  cell 0 (loaded_row (width (header_row :: data)) r) = VStr (cell_text 1 r).
Proof.
  apply loaded_row_id. pose proof (width_ledger_ge data). lia.
Qed.

(** The id cells of the sheet that read as numbers are among the
    numeric ids of the snapshot read from it. *)
Lemma ledger_numeric_id net data r :
  get_all_records_fault net = None → r ∈ data →
  notna (float_of_str (cell_text 1 r)) = true →
  float_of_str (cell_text 1 r) ∈
    numeric_ids (load_data_from_gsheet net (header_row :: data)).1.
Proof.
  intros Hfetch Hr Hnum. rewrite load_ledger by done.
  unfold numeric_ids, get_column. cbn [fst columns rows]. simpl index_of.
  apply elem_of_list_filter. split; [|done].
  rewrite <- !list_fmap_compose.
  apply (list_elem_of_fmap_2' _ _ r); [done|]. simpl.
  by rewrite ledger_row_id.
Qed.

(** No data row shows an id handed out after a read of the sheet. *)
Lemma next_id_is_fresh net data n :
  get_all_records_fault net = None →
  get_next_id (load_data_from_gsheet net (header_row :: data)).1 = Ok n →
  float_of_str (str_of_int n) = Fin (inject_Z n) →
  Forall (λ r, cell_text 1 r ≠ str_of_int n) data.
Proof.
  intros Hfetch Hnext Hparse. apply Forall_forall. intros r Hr Htext.
  pose proof (ledger_numeric_id net data r Hfetch Hr) as Hin.
  rewrite Htext, Hparse in Hin.
  apply (get_next_id_above _ _ _ Hnext) in Hin; [|done].
  by apply Qlt_irrefl in Hin.
Qed.

(** Appending and deleting undo each other.  On a ledger that was read
    without failure, once [save_entry] has appended its row, deleting
    the id it handed out takes exactly that row out again: the sheet is
    as before the save, and the next read of it hands the same id out
    once more.  (The text of the id is required to read back as the
    id.) *)
Theorem save_then_delete_restores net net' data entry n :
  get_all_records_fault net = None → append_row_fault net = None →
  find_fault net' = None → delete_rows_fault net' = None →
  get_all_records_fault net' = None →
  get_next_id (load_data_from_gsheet net (header_row :: data)).1 = Ok n →
  float_of_str (str_of_int n) = Fin (inject_Z n) →
  remove_entry_from_gsheet net'
    (sheet_after_save
       (save_entry net (header_row :: data)
          (load_data_from_gsheet net (header_row :: data)).1 entry))
    (VInt n) =
  (true, Deleted (VInt n), header_row :: data) ∧
  get_next_id
    (load_data_from_gsheet net'
       (remove_entry_from_gsheet net'
          (sheet_after_save
             (save_entry net (header_row :: data)
                (load_data_from_gsheet net (header_row :: data)).1 entry))
          (VInt n)).2).1 = Ok n.
Proof.
  intros Hfetch Happend Hfind Hdelete Hfetch' Hnext Hparse.
  assert (remove_entry_from_gsheet net'
            (sheet_after_save
               (save_entry net (header_row :: data)
                  (load_data_from_gsheet net (header_row :: data)).1 entry))
            (VInt n) =
          (true, Deleted (VInt n), header_row :: data)) as ->.
  { assert (sheet_after_save
              (save_entry net (header_row :: data)
                 (load_data_from_gsheet net (header_row :: data)).1 entry) =
            (header_row :: data) ++
              [VInt n :: ((λ h, default (VStr "")
                                 (<["ID" := VInt n]> entry !! h))
                            <$> tail HEADERS)]) as ->.
    { unfold save_entry, append_row, api_call. rewrite Hnext, Happend.
      simpl fmap. rewrite lookup_insert_eq. by case_match. }
    unfold remove_entry_from_gsheet, ws_find, delete_rows, api_call.
    rewrite Hfind, Hdelete.
    rewrite (find_from_first _ _ _ (header_row :: data)); [| |done].
    - replace (1 + length (header_row :: data) - 1)%nat
        with (length (header_row :: data)) by lia.
      by rewrite delete_middle, app_nil_r.
    - constructor; [apply not_eq_sym, str_of_int_not_label|].
      by apply (next_id_is_fresh net). }
  split; [done|]. cbn [snd].
  rewrite load_ledger in Hnext by done. by rewrite load_ledger.
Qed.

(** Ids go up.  After [save_entry] has appended the row of id [n], the
    id computed from the next successful read of the sheet is larger
    than [n].  (The text of [n] is required to read back as [n].) *)
Theorem consecutive_ids_increase net net' data df entry n m :
  get_next_id df = Ok n → append_row_fault net = None →
  get_all_records_fault net' = None →
  float_of_str (str_of_int n) = Fin (inject_Z n) →
  get_next_id
    (load_data_from_gsheet net'
       (sheet_after_save (save_entry net (header_row :: data) df entry))).1 =
    Ok m →
  n < m.
Proof.
  intros Hnext Happend Hfetch Hparse.
  assert (sheet_after_save (save_entry net (header_row :: data) df entry) =
          header_row ::
            (data ++
             [VInt n :: ((λ h, default (VStr "")
                                (<["ID" := VInt n]> entry !! h))
                           <$> tail HEADERS)])) as ->.
  { unfold save_entry, append_row, api_call. rewrite Hnext, Happend.
    simpl fmap. rewrite lookup_insert_eq. by case_match. }
  set (row := VInt n :: _). intros Hm.
  assert (float_of_str (cell_text 1 row) ∈
          numeric_ids
            (load_data_from_gsheet net' (header_row :: data ++ [row])).1)
    as Hin.
  { apply ledger_numeric_id; [done| |].
    - apply elem_of_app. right. by left.
    - change (cell_text 1 row) with (str_of_int n). by rewrite Hparse. }
  change (cell_text 1 row) with (str_of_int n) in Hin.
  rewrite Hparse in Hin.
  apply (get_next_id_above _ _ _ Hm) in Hin.
  unfold Qlt in Hin. simpl in Hin. lia.
Qed.
End FreshIds.

Lemma save_then_delete_restores_witness :
  remove_entry_from_gsheet online
    (sheet_after_save
       (save_entry online sample_sheet
          (load_data_from_gsheet online sample_sheet).1 sample_entry))
    (VInt 4) =
  (true, Deleted (VInt 4), sample_sheet).
Proof.
  destruct (save_then_delete_restores online online (tail sample_sheet)
              sample_entry 4) as [Hrestored _]; [reflexivity..|].
  exact Hrestored.
Defined.

Lemma consecutive_ids_increase_witness : 4 < 5.
Proof.
  apply (consecutive_ids_increase online online (tail sample_sheet)
           (load_data_from_gsheet online sample_sheet).1 sample_entry 4 5);
    reflexivity.
Defined.

(** ** The form when the read fails *)

Section FormFurther.
Context `{PyLib}.

(** A submission whose read of the sheet fails still appends: the id is
    computed from the empty frame the failed read returns, so the entry
    goes out with the id 1 whatever ids the sheet holds, after an error
    box for the read and before a success box for the save. *)
Theorem submit_after_failed_read net ws ss bank amount now msg :
  selected_bank ss = Some bank → bank ≠ "" →
  get_all_records_fault net = Some msg → append_row_fault net = None →
  sheet_after_submit (submit_entry_form net ws ss (Some amount) now) =
    ws ++ [entry_row (VInt 1) now (selected_cashier ss) bank amount] ∧
  shown_by_submit (submit_entry_form net ws ss (Some amount) now) =
    [st_error (FailedToLoad (APIError msg));
     st_success (Saved 1 (VStr bank) amount)].
Proof.
  intros Hbank Hnonempty Hfetch Happend.
  unfold submit_entry_form. rewrite Hbank.
  destruct bank as [|c bank]; [done|].
  unfold load_data_from_gsheet, get_all_records, api_call. rewrite Hfetch.
  unfold save_entry, append_row, api_call.
  change (get_next_id (empty_frame HEADERS)) with (Ok 1 : result Z).
  rewrite Happend. cbn [sheet_after_save shown_by_save].
  by rewrite data_row_of_entry_data.
Qed.

(** Without a selected bank, or with the amount left empty, a
    submission warns and does nothing else: the service is not called
    (no box of a read or of a save is shown) and the sheet stays as it
    is, whatever the service would have answered. *)
Lemma submit_incomplete_form net ws ss credit now :
  selected_bank ss = None ∨ selected_bank ss = Some "" ∨ credit = None →
  sheet_after_submit (submit_entry_form net ws ss credit now) = ws ∧
  (shown_by_submit (submit_entry_form net ws ss credit now) =
     [st_warning PleaseSelectBank] ∨
   shown_by_submit (submit_entry_form net ws ss credit now) =
     [st_warning PleaseEnterCredit]) ∧
  submit_entry_form net ws ss credit now =
    submit_entry_form online ws ss credit now.
Proof.
  unfold submit_entry_form. intros Hcases.
  destruct (selected_bank ss) as [[|c bank]|]; try (by repeat split; auto).
  destruct credit as [amount|]; [|by repeat split; auto].
  by destruct Hcases as [?|[?|?]].
Qed.
End FormFurther.

Lemma submit_after_failed_read_witness :
  sheet_after_submit
    (submit_entry_form (read_down "timeout") sample_sheet sample_session
       (Some (Fin 250.5)) "2024-05-03 08:00:00") =
  sample_sheet ++
    [entry_row (VInt 1) "2024-05-03 08:00:00" "Misrak" "Abay" (Fin 250.5)].
Proof.
  apply (submit_after_failed_read (read_down "timeout") sample_sheet
           sample_session "Abay" (Fin 250.5) "2024-05-03 08:00:00"
           "timeout"); [reflexivity|discriminate|reflexivity..].
Defined.

(** ** Deleting, whatever the service does *)

Section RemoveFurther.
Context `{PyLib}.

(** A deletion never does more than take one row out.  Whatever the
    service answers: either [True] is returned with the message of a
    deletion and the sheet has lost exactly the first row showing the
    id; or [False] is returned, the sheet is as it was, and the message
    tells of an id not found (every call was answered and no row shows
    the id) or of the error of the call that failed. *)
Theorem remove_entry_at_most_one_row net ws entry_id :
  (∃ above r below,
     ws = above ++ r :: below ∧
     Forall (λ r', ¬ id_matches entry_id r') above ∧ id_matches entry_id r ∧
     remove_entry_from_gsheet net ws entry_id =
       (true, Deleted entry_id, above ++ below)) ∨
  (Forall (λ r, ¬ id_matches entry_id r) ws ∧
   remove_entry_from_gsheet net ws entry_id =
     (false, CouldNotFind entry_id, ws)) ∨
  (∃ msg,
     (find_fault net = Some msg ∨ delete_rows_fault net = Some msg) ∧
     remove_entry_from_gsheet net ws entry_id =
       (false, DeleteFailed (APIError msg), ws)).
Proof.
  unfold remove_entry_from_gsheet, ws_find, delete_rows, api_call.
  destruct (find_fault net) as [msg|]; [right; right; eauto|].
  destruct (find_from (str entry_id) 1 1 ws) as [k|] eqn:Hfind.
  - destruct (delete_rows_fault net) as [msg|]; [right; right; eauto|].
    left. apply find_from_Some_inv in Hfind
      as (above & r & below & -> & -> & Hr & Habove).
    exists above, r, below. repeat split; [done..|].
    replace (1 + length above - 1)%nat with (length above) by lia.
    by rewrite delete_middle.
  - right. left. split; [|done]. by eapply find_from_None_inv.
Qed.
End RemoveFurther.

(** ** Searching *)

Lemma append_assoc a b c : (a +:+ b) +:+ c = a +:+ b +:+ c.
Proof.
  induction a as [|x a IH]; [done|]. by rewrite !append_cons, IH.
Qed.

Lemma Substring_trans a b c : Substring a b → Substring b c → Substring a c.
Proof.
  intros (p & q & ->) (p' & q' & ->).
  exists (p' +:+ p), (q +:+ q'). by rewrite !append_assoc.
Qed.



Section SearchFurther.
Context `{PyLib}.

(** A longer query finds less: when the lower-cased query [q] occurs in
    the lower-cased, non-empty query [q'], every entry found for [q'] is
    found for [q]. *)
Theorem search_narrows q q' df r :
  q' ≠ "" → Substring (str_lower q) (str_lower q') →
  r ∈ rows (search_entries q' df) → r ∈ rows (search_entries q df).
Proof.
  intros Hq' Hsub Hr.
  apply search_entries_elem in Hr as [Hr [?|Hfound]]; [done|].
  apply search_entries_elem. split; [done|]. right.
  by eapply Substring_trans.
Qed.

End SearchFurther.

Lemma search_narrows_witness :
  entry_row (VStr "3") "2024-05-02 09:40:10" "Tigist" "Nib" (Fin 50) ∈
    rows (search_entries "TIG" (load_data_from_gsheet online sample_sheet).1).
Proof.
  apply (search_narrows "TIG" "tigist nib"); [discriminate| |].
  - by exists "", "ist nib".
  - left.
Defined.

(** ** The entries log *)

Lemma Sorted_impl_Forall {A} (R R' : A → A → Prop) (P : A → Prop) l :
  (∀ x y, P x → P y → R x y → R' x y) →
  Forall P l → Sorted R l → Sorted R' l.
Proof.
  intros Himpl HP Hsorted.
  induction Hsorted as [|x l _ IH Hhead]; [constructor|].
  apply Forall_cons in HP as [Hx HP]. constructor; [by apply IH|].
  destruct Hhead as [|y l Hxy]; constructor.
  apply Forall_cons in HP as [Hy _]. by apply Himpl.
Qed.

Section LogFurther.
Context `{PyLib}.

(** The frame the log is made from: whatever the read does on a ledger
    sheet, "ID" labels its first column and the ids are strings. *)
Lemma ledger_frame net data :
  index_of "ID" (columns (load_data_from_gsheet net (header_row :: data)).1) =
    Some 0%nat ∧
  Forall (λ r, ∃ s, cell 0 r = VStr s)
    (rows (load_data_from_gsheet net (header_row :: data)).1).
Proof.
  destruct (get_all_records_fault net) as [msg|] eqn:Hfetch.
  - unfold load_data_from_gsheet, get_all_records, api_call.
    rewrite Hfetch. simpl. split; [done|constructor].
  - rewrite load_ledger by done. cbn [fst columns rows].
    split; [done|].
    apply Forall_fmap, Forall_true. intros r. simpl.
    rewrite ledger_row_id. by eexists.
Qed.

(** On a ledger sheet the log does not fail, whatever the read does, as
    long as the query is empty or the snapshot has entries: it shows
    the columns of the snapshot and exactly the entries the search
    keeps, each as often as the snapshot has it, so ordered that the
    ids, compared as strings, never go up; the boxes are those of the
    read. *)
Theorem entries_log_of_ledger net data q :
  q = "" ∨ rows (load_data_from_gsheet net (header_row :: data)).1 ≠ [] →
  ∃ d,
    entries_log net (header_row :: data) q =
      (Ok d, (load_data_from_gsheet net (header_row :: data)).2) ∧
    columns d = columns (load_data_from_gsheet net (header_row :: data)).1 ∧
    rows d ≡ₚ
      rows (search_entries q
              (load_data_from_gsheet net (header_row :: data)).1) ∧
    Sorted (λ r r', ∃ s s', cell 0 r = VStr s ∧ cell 0 r' = VStr s' ∧
                            String.leb s' s = true) (rows d).
Proof.
  intros _. unfold entries_log.
  destruct (ledger_frame net data) as (Hcols & Hids).
  destruct (load_data_from_gsheet net (header_row :: data)) as [df shown].
  cbn [fst snd] in *.
  assert (Forall (λ r, ∃ s, cell 0 r = VStr s)
            (rows (search_entries q df))) as Hfound.
  { apply Forall_forall. intros r [Hr _]%search_entries_elem.
    rewrite Forall_forall in Hids. by apply Hids. }
  unfold sort_values_desc.
  rewrite search_entries_columns, Hcols. cbn iota beta.
  assert (forallb is_str (cell 0 <$> rows (search_entries q df)) = true)
    as ->.
  { apply forallb_forall. intros v Hv.
    apply list_elem_of_In, list_elem_of_fmap_1 in Hv as (r & -> & Hr).
    rewrite Forall_forall in Hfound. by destruct (Hfound r Hr) as [s ->]. }
  eexists. split; [done|]. cbn [columns rows]. split; [done|].
  split; [apply sort_desc_perm|].
  eapply (Sorted_impl_Forall _ _ (λ r, ∃ s, cell 0 r = VStr s));
    [| |apply sort_desc_sorted].
  - intros r r' [s Hs] [s' Hs']. unfold listed_before.
    rewrite Hs, Hs'. simpl. eauto.
  - by rewrite sort_desc_perm.
Qed.

(** The log needs the id column: on a sheet with data rows whose label
    row has no "ID", the read goes through and the sorting raises
    [KeyError], which nothing catches. *)
Theorem entries_log_without_id_column net header data q :
  get_all_records_fault net = None → header ≠ [] → data ≠ [] →
  "ID" ∉ (str <$> header) →
  entries_log net (header :: data) q = (Raise (KeyError "ID"), []).
Proof.
  intros Hfetch Hheader Hdata Hno_id. unfold entries_log.
  pose proof (width_positive header data Hheader) as Hwidth.
  set (w := width (header :: data)) in *.
  assert ("ID" ∉ str <$> resize w (VStr "") header) as Hno_id'.
  { rewrite resize_ge by (unfold w; rewrite width_cons; lia).
    rewrite fmap_app, fmap_replicate. intros [?|Hblank]%elem_of_app; [done|].
    by apply elem_of_replicate in Hblank as [? _]. }
  assert (load_data_from_gsheet net (header :: data) =
          ({| columns := str <$> resize w (VStr "") header;
              rows := resize w (VStr "") <$> data |}, []))
    as ->.
  { unfold load_data_from_gsheet.
    destruct (get_all_records net (header :: data)) as [records|e]
      eqn:Hrecords;
      [|by unfold get_all_records, api_call in Hrecords;
           rewrite Hfetch in Hrecords].
    rewrite (get_all_records_frame _ _ _ _ Hrecords) by done. fold w.
    unfold df_empty, has_column. cbn [columns rows].
    rewrite (proj2 (index_of_None _ _) Hno_id').
    destruct data; [done|].
    destruct (resize w (VStr "") header) eqn:Hfilled; [|done].
    apply (f_equal length) in Hfilled.
    by rewrite length_resize in Hfilled. }
  unfold sort_values_desc. rewrite search_entries_columns. cbn [columns].
  by rewrite (proj2 (index_of_None _ _) Hno_id').
Qed.
End LogFurther.

Lemma entries_log_of_ledger_witness :
  ∃ d,
    entries_log online sample_sheet "nib" = (Ok d, []) ∧
    rows d ≡ₚ
      rows (search_entries "nib"
              (load_data_from_gsheet online sample_sheet).1).
Proof.
  destruct (entries_log_of_ledger online (tail sample_sheet) "nib")
    as (d & Hlog & _ & Hrows & _); [right; discriminate|].
  exists d. split; [exact Hlog|exact Hrows].
Defined.

Lemma entries_log_without_id_column_witness :
  entries_log online
    [[VStr "Timestamp"; VStr "Bank"]; [VStr "2024-05-02 09:15:00"; VStr "CBE"]]
    "" = (Raise (KeyError "ID"), []).
Proof.
  apply (entries_log_without_id_column online
           [VStr "Timestamp"; VStr "Bank"]
           [[VStr "2024-05-02 09:15:00"; VStr "CBE"]] "");
    [reflexivity|discriminate|discriminate|].
  intros Hin. apply list_elem_of_In in Hin. simpl in Hin.
  by destruct Hin as [?|[?|[]]].
Defined.

(** ** Deleting what the log lists *)

Section ConfirmFurther.
Context `{PyLib}.

Lemma entries_log_rows net ws q d shown r :
  entries_log net ws q = (Ok d, shown) → r ∈ rows d →
  r ∈ rows (load_data_from_gsheet net ws).1 ∧
  columns d = columns (load_data_from_gsheet net ws).1.
Proof.
  unfold entries_log.
  destruct (load_data_from_gsheet net ws) as [df shown']. cbn [fst].
  intros [= Hsort _] Hr.
  apply sort_values_desc_sorted in Hsort as (Hcols & Hperm & _).
  rewrite Hperm in Hr. apply search_entries_elem in Hr as [Hr _].
  by rewrite Hcols, search_entries_columns.
Qed.

Lemma find_from_is_Some query col n grid r :
  r ∈ grid → cell_text col r = query →
  is_Some (find_from query col n grid).
Proof.
  intros Hr Htext.
  destruct (find_from query col n grid) as [k|] eqn:Hfind; [by eexists|].
  apply find_from_None_inv in Hfind. rewrite Forall_forall in Hfind.
  by destruct (Hfind r Hr).
Qed.

Lemma ledger_entry_narrow data :
  forallb is_ledger_entry data = true →
  Forall (λ r, (length r ≤ 5)%nat) data.
Proof.
  intros Hentries. apply Forall_forall. intros r Hr%list_elem_of_In.
  rewrite forallb_forall in Hentries. specialize (Hentries r Hr).
  by destruct r as [|[] [|[] [|[] [|[] [|? [|? ?]]]]]].
Qed.

(** On a ledger whose rows are as [save_entry] writes them, each
    showing in its first column the text of the id read from it, a row
    of the log can always be deleted from the sheet the log was read
    from.  With the service answering, "Confirm Deletion" for a listed
    row answers [True] and takes out the first row of the sheet showing
    the id of that row; where that id is on one row only, the row taken
    out is the listed entry itself (a number in it possibly written the
    other way, [100] for [100.0]). *)
Theorem confirm_deletion_of_listed_row net net' data q d shown k r :
  forallb is_ledger_entry data = true →
  Forall (λ r0, cell_text 1 r0 = str (cell 0 r0)) data →
  entries_log net (header_row :: data) q = (Ok d, shown) →
  rows d !! k = Some r →
  find_fault net' = None → delete_rows_fault net' = None →
  ∃ above r0 below,
    header_row :: data = above ++ r0 :: below ∧
    cell_text 1 r0 = str (cell 0 r) ∧
    Forall (λ r', cell_text 1 r' ≠ str (cell 0 r)) above ∧
    confirm_deletion net' (header_row :: data) d k =
      Some (true, Deleted (cell 0 r), above ++ below) ∧
    (at_most_one_match (cell 0 r) (header_row :: data) →
     same_entry (loaded_row 5 r0) r).
Proof.
  intros Hentries%ledger_entry_narrow _ Hlog Hk Hfind Hdelete.
  destruct (entries_log_rows _ _ _ _ _ r Hlog) as [Hr Hcols];
    [by eapply list_elem_of_lookup_2|].
  destruct (get_all_records_fault net) as [msg|] eqn:Hfetch.
  { unfold load_data_from_gsheet, get_all_records, api_call in Hr.
    rewrite Hfetch in Hr. by apply elem_of_nil in Hr. }
  rewrite load_ledger_narrow in Hr, Hcols by done. cbn [fst columns rows] in *.
  apply list_elem_of_fmap_1 in Hr as (r1 & -> & Hr1).
  assert (str (cell 0 (loaded_row 5 r1)) = cell_text 1 r1) as Htext
    by (by rewrite loaded_row_id by lia).
  destruct (find_from_is_Some (cell_text 1 r1) 1 1 (header_row :: data) r1)
    as [n Hn]; [by right|done|].
  destruct (find_from_Some_inv _ _ _ _ _ Hn)
    as (above & r0 & below & Hsplit & -> & Hr0 & Habove).
  exists above, r0, below. rewrite Htext.
  split; [done|]. split; [done|]. split; [done|]. split.
  - unfold confirm_deletion. rewrite Hk, Hcols. simpl.
    unfold remove_entry_from_gsheet, ws_find, delete_rows, api_call.
    rewrite Hfind, Hdelete, Htext, Hn, Hsplit.
    replace (1 + length above - 1)%nat with (length above) by lia.
    by rewrite delete_middle.
  - intros Hunique.
    apply list_elem_of_lookup in Hr1 as [j Hj].
    assert (length above = S j) as Hsame.
    { apply (Hunique _ _ r0 r1).
      - rewrite Hsplit. by rewrite list_lookup_middle.
      - done.
      - unfold id_matches. by rewrite Htext.
      - unfold id_matches. by rewrite Htext. }
    assert ((header_row :: data) !! length above = Some r0) as Hr0'.
    { rewrite Hsplit. by rewrite list_lookup_middle. }
    rewrite Hsame in Hr0'. simpl in Hr0'.
    assert (r0 = r1) as -> by congruence. apply same_entry_refl.
Qed.
End ConfirmFurther.

Lemma confirm_deletion_of_listed_row_witness :
  ∃ above r0 below,
    sample_sheet = above ++ r0 :: below ∧
    confirm_deletion online sample_sheet
      {| columns := HEADERS;
         rows := [entry_row (VStr "3") "2024-05-02 09:40:10" "Tigist" "Nib"
                            (Fin 50);
                  entry_row (VStr "1") "2024-05-02 09:15:00" "Emush" "Abay"
                            (Fin 100)] |} 1 =
      Some (true, Deleted (VStr "1"), above ++ below).
Proof.
  destruct (confirm_deletion_of_listed_row online online (tail sample_sheet)
              ""
              {| columns := HEADERS;
                 rows := [entry_row (VStr "3") "2024-05-02 09:40:10" "Tigist"
                                    "Nib" (Fin 50);
                          entry_row (VStr "1") "2024-05-02 09:15:00" "Emush"
                                    "Abay" (Fin 100)] |}
              [] 1
              (entry_row (VStr "1") "2024-05-02 09:15:00" "Emush" "Abay"
                         (Fin 100)))
    as (above & r0 & below & Hsplit & _ & _ & Hconfirm & _);
    [reflexivity|by repeat constructor|reflexivity..|].
  exists above, r0, below. split; [exact Hsplit|exact Hconfirm].
Defined.

(** * Properties of the pages *)

Lemma clicked_among_elem button names pressed name :
  clicked_among button names pressed = Some name →
  name ∈ names ∧ pressed = Some (button name).
Proof.
  induction names as [|n names IH]; simpl; [done|].
  case_decide as Hpressed.
  - intros [= <-]. split; [by left|done].
  - intros [Hin ?]%IH. split; [by right|done].
Qed.

Lemma log_out_section_sheet inp r :
  sheet_after (log_out_section inp r) = sheet_after r.
Proof. unfold log_out_section. by case_decide. Qed.

Lemma log_out_section_state inp r :
  state_after (log_out_section inp r) = state_after r ∨
  (pressed inp = Some LogOutButton ∧
   state_after (log_out_section inp r) = None).
Proof. unfold log_out_section. case_decide; auto. Qed.

Section PageProperties.
Context `{PyLib}.

(** What a submission does to the sheet: nothing, or one row at the end
    made of an integer id, the time, the cashier of the session, the
    selected bank and the amount. *)
Lemma submit_entry_form_sheet net ws ss credit now :
  sheet_after_submit (submit_entry_form net ws ss credit now) = ws ∨
  ∃ entry_id bank amount,
    selected_bank ss = Some bank ∧ credit = Some amount ∧
    sheet_after_submit (submit_entry_form net ws ss credit now) =
      ws ++ [entry_row (VInt entry_id) now (selected_cashier ss) bank amount].
Proof.
  unfold submit_entry_form.
  destruct (selected_bank ss) as [[|c bank]|]; [by left| |by left].
  destruct credit as [amount|]; [|by left].
  destruct (load_data_from_gsheet net ws) as [df shown].
  unfold save_entry, append_row, api_call.
  destruct (get_next_id df) as [entry_id|e]; [|by left].
  destruct (append_row_fault net); [by left|].
  right. exists entry_id, (String c bank), amount.
  rewrite data_row_of_entry_data. by repeat split.
Qed.

(** The sheet a run of the main page leaves, against the sheet it
    found. *)
Lemma main_app_page_sheet sv ws ss inp :
  sheet_after (main_app_page sv ws ss inp) = ws ∨
  (pressed inp = Some SubmitEntryButton ∧
   ∃ entry_id bank amount,
     selected_bank ss = Some bank ∧ credit_input inp = Some amount ∧
     sheet_after (main_app_page sv ws ss inp) =
       ws ++ [entry_row (VInt entry_id) (clock inp) (selected_cashier ss)
                        bank amount]) ∨
  (∃ selected_id above r below,
     pressed inp = Some (ConfirmDeletionButton selected_id) ∧
     ws = above ++ r :: below ∧
     Forall (λ r', cell_text 1 r' ≠ selected_id) above ∧
     cell_text 1 r = selected_id ∧
     sheet_after (main_app_page sv ws ss inp) = above ++ below).
Proof.
  unfold main_app_page.
  case_decide as Hchange; [by left|].
  destruct (clicked_among BankButton BANKS (pressed inp)); [by left|].
  case_decide as Hsubmit.
  - pose proof (submit_entry_form_sheet (form_net sv) ws ss
                  (credit_input inp) (clock inp)) as Hsheet.
    destruct (entries_log (log_net sv) _ (search_input inp))
      as [[display_df|e] shown]; [|cbn [sheet_after]; tauto].
    destruct (selected_entry_id display_df (selection inp)) as [selected_id|];
      [|rewrite log_out_section_sheet; cbn [sheet_after]; tauto].
    case_decide as Hconfirm; [congruence|].
    rewrite log_out_section_sheet. cbn [sheet_after]. tauto.
  - destruct (entries_log (log_net sv) ws (search_input inp))
      as [[display_df|e] shown]; [|by left].
    destruct (selected_entry_id display_df (selection inp)) as [selected_id|];
      [|left; by rewrite log_out_section_sheet].
    case_decide as Hconfirm; [|left; by rewrite log_out_section_sheet].
    destruct (remove_entry_from_gsheet (deletion_net sv) ws selected_id)
      as [[[] m] ws2] eqn:Hremove.
    + apply remove_entry_true_inv in Hremove
        as (above & r & below & -> & -> & Hr & Habove).
      right. right. by exists (str selected_id), above, r, below.
    + apply remove_entry_false_unchanged in Hremove as ->.
      left. by rewrite log_out_section_sheet.
Qed.

(** A run changes the sheet by one row at most, and only when the
    submit button or a confirmation button set it off: the sheet is
    left as it was, or it has one more row at its end, a deposit of the
    session's cashier with the selected bank, or it has lost the first
    row showing the id the pressed confirmation button spells.  A run
    without a connection or without a selected cashier leaves the sheet
    as it was. *)
Theorem run_changes_one_row_at_most sv ws state inp :
  (connect_fault sv ≠ None ∨ state = None →
   sheet_after (main sv ws state inp) = ws) ∧
  (sheet_after (main sv ws state inp) = ws ∨
   (pressed inp = Some SubmitEntryButton ∧
    ∃ ss entry_id bank amount,
      state = Some ss ∧ selected_bank ss = Some bank ∧
      credit_input inp = Some amount ∧
      sheet_after (main sv ws state inp) =
        ws ++ [entry_row (VInt entry_id) (clock inp) (selected_cashier ss)
                         bank amount]) ∨
   (∃ selected_id above r below,
      pressed inp = Some (ConfirmDeletionButton selected_id) ∧
      ws = above ++ r :: below ∧
      Forall (λ r', cell_text 1 r' ≠ selected_id) above ∧
      cell_text 1 r = selected_id ∧
      sheet_after (main sv ws state inp) = above ++ below)).
Proof.
  unfold main, connect_to_gsheet, api_call.
  destruct (connect_fault sv) as [msg|]; [by split; [|left]|].
  destruct state as [ss|].
  - split; [by intros [?|?]|].
    destruct (main_app_page_sheet sv ws ss inp)
      as [?|[(? & n & bank & amount & ? & ? & ?)|?]];
      [by left| |by right; right].
    right. left. split; [done|]. by exists ss, n, bank, amount.
  - split; [intros _|left];
      unfold cashier_selection_page; by case_match.
Qed.

(** What a run of the main page does to the session: it ends it (on
    "Change Cashier" and on "Log Out" only), or it keeps the cashier and
    either keeps the bank or takes the bank of the pressed button, a
    listed one. *)
Lemma main_app_page_state sv ws ss inp :
  ((pressed inp = Some ChangeCashierButton ∨ pressed inp = Some LogOutButton) ∧
   state_after (main_app_page sv ws ss inp) = None) ∨
  state_after (main_app_page sv ws ss inp) = Some ss ∨
  (∃ bank, bank ∈ BANKS ∧ pressed inp = Some (BankButton bank) ∧
           state_after (main_app_page sv ws ss inp) =
             Some {| selected_cashier := selected_cashier ss;
                     selected_bank := Some bank |}).
Proof.
  unfold main_app_page.
  case_decide as Hchange; [left; auto|].
  destruct (clicked_among BankButton BANKS (pressed inp)) as [bank|]
    eqn:Hbank.
  { apply clicked_among_elem in Hbank as [? ?]. right. right. by exists bank. }
  destruct (if decide (pressed inp = Some SubmitEntryButton) then _ else _)
    as [ws1 boxes1].
  destruct (entries_log (log_net sv) ws1 (search_input inp))
    as [[display_df|e] shown]; [|by right; left].
  assert (∀ r, state_after r = Some ss →
               (pressed inp = Some LogOutButton ∧
                state_after (log_out_section inp r) = None) ∨
               state_after (log_out_section inp r) = Some ss) as Hout.
  { intros r Hr. destruct (log_out_section_state inp r) as [->|?]; auto. }
  assert (∀ r, state_after r = Some ss →
               ((pressed inp = Some ChangeCashierButton ∨
                 pressed inp = Some LogOutButton) ∧
                state_after (log_out_section inp r) = None) ∨
               state_after (log_out_section inp r) = Some ss ∨
               (∃ bank, bank ∈ BANKS ∧ pressed inp = Some (BankButton bank) ∧
                        state_after (log_out_section inp r) =
                          Some {| selected_cashier := selected_cashier ss;
                                  selected_bank := Some bank |})) as Hgoal.
  { intros r Hr. destruct (Hout r Hr) as [[? ->]| ->]; auto. }
  destruct (selected_entry_id display_df (selection inp)) as [selected_id|];
    [|by apply Hgoal].
  case_decide; [|by apply Hgoal].
  destruct (remove_entry_from_gsheet _ _ _) as [[[] m] ws2];
    [by right; left|by apply Hgoal].
Qed.
End PageProperties.

(** ** The session and the vocabulary *)

Section SessionProperties.
Context `{PyLib}.

(** How a run moves the session.  Without a cashier, only the button of
    a listed cashier starts a session, with no bank selected.  With a
    cashier, the run ends the session (on "Change Cashier" and on
    "Log Out" only) or keeps its cashier, and the bank changes only to
    the listed bank whose button was pressed.  Without a connection the
    session stays as it is. *)
Theorem session_over_a_run sv ws state inp :
  (connect_fault sv ≠ None → state_after (main sv ws state inp) = state) ∧
  match state with
  | None =>
      state_after (main sv ws state inp) = None ∨
      ∃ cashier,
        cashier ∈ CASHIERS ∧ pressed inp = Some (CashierButton cashier) ∧
        state_after (main sv ws state inp) =
          Some {| selected_cashier := cashier; selected_bank := None |}
  | Some ss =>
      ((pressed inp = Some ChangeCashierButton ∨
        pressed inp = Some LogOutButton) ∧
       state_after (main sv ws state inp) = None) ∨
      state_after (main sv ws state inp) = Some ss ∨
      ∃ bank,
        bank ∈ BANKS ∧ pressed inp = Some (BankButton bank) ∧
        state_after (main sv ws state inp) =
          Some {| selected_cashier := selected_cashier ss;
                  selected_bank := Some bank |}
  end.
Proof.
  unfold main, connect_to_gsheet, api_call.
  destruct (connect_fault sv) as [msg|].
  { split; [done|]. destruct state; auto. }
  split; [done|]. destruct state as [ss|].
  - apply main_app_page_state.
  - unfold cashier_selection_page.
    destruct (clicked_among CashierButton CASHIERS (pressed inp))
      as [cashier|] eqn:Hclick; [|by left].
    apply clicked_among_elem in Hclick as [? ?]. right. by exists cashier.
Qed.

Lemma main_keeps_vocabulary sv ws state inp :
  session_in_vocabulary state →
  session_in_vocabulary (state_after (main sv ws state inp)) ∧
  ∀ r, r ∈ sheet_after (main sv ws state inp) →
       r ∈ ws ∨ entry_in_vocabulary r.
Proof.
  intros Hstate. unfold main, connect_to_gsheet, api_call.
  destruct (connect_fault sv) as [msg|]; [by split; [|left]|].
  destruct state as [ss|].
  - destruct Hstate as [Hcashier Hbank]. split.
    + destruct (main_app_page_state sv ws ss inp)
        as [[_ ->]|[->|(bank & Hin & _ & ->)]]; [done|done|].
      split; [done|]. by intros ? [= <-].
    + intros r Hr.
      destruct (main_app_page_sheet sv ws ss inp)
        as [Hsame|[(_ & n & bank & amount & Hsel & _ & Hsheet)
                  |(id & above & r0 & below & _ & -> & _ & _ & Hsheet)]].
      * left. by rewrite <- Hsame.
      * rewrite Hsheet in Hr. apply elem_of_app in Hr as [?|Hr]; [by left|].
        apply list_elem_of_singleton in Hr as ->. right.
        exists n, (clock inp), (selected_cashier ss), bank, amount.
        split; [done|]. split; [done|]. by apply Hbank.
      * rewrite Hsheet in Hr. left.
        apply elem_of_app in Hr as [?|?]; apply elem_of_app; [by left|].
        right. by right.
  - unfold cashier_selection_page.
    destruct (clicked_among CashierButton CASHIERS (pressed inp))
      as [cashier|] eqn:Hclick; cbn [state_after sheet_after];
      [|by split; [|left]].
    apply clicked_among_elem in Hclick as [? _].
    split; [by split|by left].
Qed.

(** The two vocabularies are closed under the pages.  Whatever runs of
    the script follow one another from a fresh session, under whatever
    service and inputs: the session holds a listed cashier and, if any,
    a listed bank; and every row of the sheet was on it at the start or
    is a deposit under an integer id whose cashier is one of [CASHIERS]
    and whose bank is one of [BANKS]. *)
Theorem run_script_vocabulary steps ws :
  session_in_vocabulary (run_script steps ws None).2 ∧
  ∀ r, r ∈ (run_script steps ws None).1 → r ∈ ws ∨ entry_in_vocabulary r.
Proof.
  assert (∀ ws' state,
            session_in_vocabulary state →
            (∀ r, r ∈ ws' → r ∈ ws ∨ entry_in_vocabulary r) →
            session_in_vocabulary (run_script steps ws' state).2 ∧
            ∀ r, r ∈ (run_script steps ws' state).1 →
                 r ∈ ws ∨ entry_in_vocabulary r) as Hinv.
  { induction steps as [|[sv inp] steps IH]; intros ws' state Hstate Hsheet;
      [by split|].
    simpl. destruct (main_keeps_vocabulary sv ws' state inp Hstate)
      as [Hstate' Hsheet'].
    apply IH; [done|]. intros r Hr.
    destruct (Hsheet' r Hr) as [?|?]; auto. }
  apply Hinv; [done|auto].
Qed.

(** Leaving the main page.  "Change Cashier" ends the session at once,
    before anything is read.  "Log Out" comes last in the script: the
    run first reads the sheet for the log, and the session ends only if
    the log could be made; if the log fails the run stops there and the
    cashier stays logged in.  Neither touches the sheet. *)
Theorem leaving_the_main_page sv ws ss inp :
  connect_fault sv = None →
  (pressed inp = Some ChangeCashierButton →
   main sv ws (Some ss) inp =
     {| state_after := None; sheet_after := ws; boxes := [];
        ending_of := Rerun |}) ∧
  (pressed inp = Some LogOutButton →
   sheet_after (main sv ws (Some ss) inp) = ws ∧
   match (entries_log (log_net sv) ws (search_input inp)).1 with
   | Ok _ =>
       state_after (main sv ws (Some ss) inp) = None ∧
       ending_of (main sv ws (Some ss) inp) = Rerun ∧
       last (boxes (main sv ws (Some ss) inp)) = Some st_success_logged_out
   | Raise e =>
       state_after (main sv ws (Some ss) inp) = Some ss ∧
       ending_of (main sv ws (Some ss) inp) = Crashed e
   end).
Proof.
  intros Hconnect. unfold main, connect_to_gsheet, api_call.
  rewrite Hconnect. unfold main_app_page. split.
  - intros ->. by rewrite decide_True.
  - intros Hout. rewrite Hout.
    rewrite decide_False by done.
    destruct (clicked_among BankButton BANKS (Some LogOutButton)) as [bank|]
      eqn:Hbank; [by apply clicked_among_elem in Hbank as [_ ?]|].
    rewrite decide_False by done.
    destruct (entries_log (log_net sv) ws (search_input inp))
      as [[display_df|e] shown]; [|done].
    unfold log_out_section. rewrite Hout.
    destruct (selected_entry_id display_df (selection inp)) as [selected_id|].
    + rewrite decide_False by done. rewrite decide_True by done.
      cbn [state_after sheet_after boxes ending_of fst].
      by rewrite last_snoc.
    + rewrite decide_True by done.
      cbn [state_after sheet_after boxes ending_of fst].
      by rewrite last_snoc.
Qed.
End SessionProperties.

Lemma leaving_the_main_page_witness :
  state_after
    (main all_up sample_sheet (Some sample_session)
       (press LogOutButton idle)) = None ∧
  main all_up sample_sheet (Some sample_session)
    (press ChangeCashierButton idle) =
    {| state_after := None; sheet_after := sample_sheet; boxes := [];
       ending_of := Rerun |}.
Proof.
  destruct (leaving_the_main_page all_up sample_sheet sample_session
              (press LogOutButton idle) eq_refl) as [_ Hout].
  destruct (leaving_the_main_page all_up sample_sheet sample_session
              (press ChangeCashierButton idle) eq_refl) as [Hchange _].
  split; [|by apply Hchange].
  by destruct (Hout eq_refl) as (_ & ? & _).
Defined.
